(** * The harvest-and-classify pipeline of [update_steam_sales]

    A shallow embedding of [Command.handle] of
    [users/management/commands/update_steam_sales.py]: the page-by-page
    fetch loop, the scam filter and the three-way classification run on
    every fetched record, the sorting and capping of the three views, and
    the two file writes that end the run. *)

From Stdlib Require Import ZArith QArith Lqa List String Ascii Bool Lia.
From Stdlib Require Import Permutation Sorted.
Import ListNotations.

Set Warnings "-register-all".
Open Scope string_scope.
Open Scope Z_scope.
Open Scope list_scope.

(** ** Python values

    The records come out of [response.json()], so they are JSON values as
    Python holds them.  A number, [int] or [float], is represented by its
    exact value: the comparisons, the truth test and the dictionary lookup
    the command performs on numbers depend on nothing else.  The [NaN] and
    [Infinity] literals that Python's parser accepts beyond JSON have no
    representation here, so the numbers of the model are totally ordered,
    which Python's are not once a [NaN] is among them (see the sorting
    below for what that leaves unsaid).  A string is its UTF-8 text, on
    which code-point order and substring search agree with byte order and
    byte search.  A dictionary is the list of its items in insertion
    order. *)

Inductive pyval : Type :=
| PNone
| PBool (b : bool)
| PNum (q : Q)
| PStr (s : string)
| PList (l : list pyval)
| PDict (d : list (string * pyval)).

Definition dict := list (string * pyval).

(** Exceptions that can leave [handle], and results of fallible steps. *)
Inductive exn : Type := TypeError | AttributeError | CommandError.

Inductive result (A : Type) : Type :=
| Ok (a : A)
| Raise (e : exn).
Arguments Ok {A} a.
Arguments Raise {A} e.

Definition bind {A B : Type} (r : result A) (k : A -> result B) : result B :=
  match r with
  | Ok a => k a
  | Raise e => Raise e
  end.

Notation "x <- r ;; k" := (bind r (fun x => k))
  (at level 61, r at next level, right associativity).

(** [d.get(key, default)]: the first item stored under [key]. *)
Fixpoint dict_get (d : dict) (key : string) (default : pyval) : pyval :=
  match d with
  | [] => default
  | (k, v) :: d' => if String.eqb k key then v else dict_get d' key default
  end.

(** Python's truth test. *)
Definition truthy (v : pyval) : bool :=
  match v with
  | PNone => false
  | PBool b => b
  | PNum q => negb (Qeq_bool q 0)
  | PStr s => negb (String.eqb s "")
  | PList l => match l with [] => false | _ => true end
  | PDict d => match d with [] => false | _ => true end
  end.

(** [x or y]. *)
Definition py_or (x y : pyval) : pyval := if truthy x then x else y.

(** The numeric value of an operand of [<], [>], [>=] against a number:
    [bool] is a subclass of [int]; anything else makes the comparison raise
    [TypeError]. *)
Definition as_num (v : pyval) : option Q :=
  match v with
  | PNum q => Some q
  | PBool b => Some (if b then 1%Q else 0%Q)
  | _ => None
  end.

Definition num_operand (v : pyval) : result Q :=
  match as_num v with
  | Some q => Ok q
  | None => Raise TypeError
  end.

(** The operand of [>= today], a string comparison. *)
Definition str_operand (v : pyval) : result string :=
  match v with
  | PStr s => Ok s
  | _ => Raise TypeError
  end.

(** The receiver of [.lower()]: only [str] has the attribute. *)
Definition str_receiver (v : pyval) : result string :=
  match v with
  | PStr s => Ok s
  | _ => Raise AttributeError
  end.

(** The receiver of [item.get]: only a dictionary has it among JSON values. *)
Definition dict_receiver (v : pyval) : result dict :=
  match v with
  | PDict d => Ok d
  | _ => Raise AttributeError
  end.

Definition Qltb (x y : Q) : bool := negb (Qle_bool y x).

(** [kw in s] on strings. *)
Fixpoint contains (kw s : string) : bool :=
  String.prefix kw s ||
  match s with
  | EmptyString => false
  | String _ s' => contains kw s'
  end.

(** What [list.extend] appends for an argument: the elements of a list, the
    characters of a string, the keys of a dictionary; other JSON values are
    not iterable.  A character is a byte with the UTF-8 continuation bytes
    that follow it. *)
Definition continuation (c : ascii) : bool :=
  let n := nat_of_ascii c in ((128 <=? n) && (n <? 192))%nat.

Definition starts_continuation (s : string) : bool :=
  match s with
  | String c _ => continuation c
  | EmptyString => false
  end.

Fixpoint chars (s : string) : list pyval :=
  match s with
  | EmptyString => []
  | String c s' =>
      match starts_continuation s', chars s' with
      | true, PStr g :: rest => PStr (String c g) :: rest
      | _, rest => PStr (String c EmptyString) :: rest
      end
  end.

Definition iterate (v : pyval) : result (list pyval) :=
  match v with
  | PList l => Ok l
  | PStr s => Ok (chars s)
  | PDict d => Ok (map (fun kv => PStr (fst kv)) d)
  | _ => Raise TypeError
  end.

(** Equality of dictionary keys ([hash] and [==]): numbers and booleans by
    value, strings by content, [None] with itself. *)
Definition key_eqb (a b : pyval) : bool :=
  match a, b with
  | PNone, PNone => true
  | PStr s, PStr t => String.eqb s t
  | PNum _, PNum _ | PNum _, PBool _ | PBool _, PNum _ | PBool _, PBool _ =>
      match as_num a, as_num b with
      | Some x, Some y => Qeq_bool x y
      | _, _ => false
      end
  | _, _ => false
  end.

(** Lists and dictionaries are unhashable: using one as a key raises. *)
Definition hashable (v : pyval) : bool :=
  match v with
  | PList _ | PDict _ => false
  | _ => true
  end.

(** [l[:n]]: the first [n] elements, and for a negative [n] all but the
    last [-n]. *)
Definition slice_to {A : Type} (n : Z) (l : list A) : list A :=
  if 0 <=? n then firstn (Z.to_nat n) l
  else firstn (Z.to_nat (Z.of_nat (List.length l) + n)) l.

(** The float literals of the filter.  [1.0] and [0.5] are exact; [0.9] and
    [0.95] denote the binary64 numbers nearest to them. *)
Definition f1_0 : Q := 1.
Definition f0_5 : Q := 1 # 2.
Definition f0_9 : Q := 8106479329266893 # 9007199254740992.
Definition f0_95 : Q := 8556839292003942 # 9007199254740992.

Definition scam_keywords : list string :=
  ["puzzle pack"; "dlc bundle"; "soundtrack"; "ost"; "artbook"].

(** [str.lower] on ASCII text, used to run the model on concrete records. *)
Definition ascii_lower_char (c : ascii) : ascii :=
  let n := nat_of_ascii c in
  if ((65 <=? n) && (n <=? 90))%nat then ascii_of_nat (n + 32) else c.

Fixpoint ascii_lower (s : string) : string :=
  match s with
  | EmptyString => EmptyString
  | String c s' => String (ascii_lower_char c) (ascii_lower s')
  end.

(** ** The records the command builds

    [game_info] is the dictionary built for every record that passes the
    filter.  By then [discount_rt], [full_price] and [sale_count] have each
    been an operand of a numeric comparison that did not raise, so they are
    numbers; the other entries are stored unchecked.  [is_best_price] is
    the key that only the entries of [best_prices] carry. *)

Record game_info : Type := {
  game_id : pyval;
  title : pyval;
  current_price : pyval;
  original_price : Q;
  discount_rate : Q;
  thumbnail : pyval;
  store_link : pyval;
  end_date : pyval;
  sale_count : Q;
  is_best_price : bool
}.

(** The accumulators of the classification loop.  [best_prices] is a
    dictionary keyed by [game_id], kept as its items in insertion order. *)
Record acc : Type := {
  current_sales : list game_info;
  best_prices : list (pyval * game_info);
  skipped_scam : nat
}.

Definition acc_init : acc :=
  {| current_sales := []; best_prices := []; skipped_scam := 0 |}.

(** [skipped_scam += 1; continue] *)
Definition skip (st : acc) : acc :=
  {| current_sales := current_sales st;
     best_prices := best_prices st;
     skipped_scam := S (skipped_scam st) |}.

(** [current_sales.append(game_info)] *)
Definition append_current (st : acc) (g : game_info) : acc :=
  {| current_sales := current_sales st ++ [g];
     best_prices := best_prices st;
     skipped_scam := skipped_scam st |}.

(** [best_prices[key]] when [key in best_prices]. *)
Fixpoint bp_lookup (bp : list (pyval * game_info)) (key : pyval)
  : option game_info :=
  match bp with
  | [] => None
  | (k, g) :: bp' => if key_eqb k key then Some g else bp_lookup bp' key
  end.

(** [best_prices[key] = g]: an existing key keeps its place, a new one goes
    last. *)
Fixpoint bp_set (bp : list (pyval * game_info)) (key : pyval) (g : game_info)
  : list (pyval * game_info) :=
  match bp with
  | [] => [(key, g)]
  | (k, g') :: bp' =>
      if key_eqb k key then (k, g) :: bp' else (k, g') :: bp_set bp' key g
  end.

Definition mark_best (g : game_info) : game_info :=
  {| game_id := game_id g; title := title g;
     current_price := current_price g; original_price := original_price g;
     discount_rate := discount_rate g; thumbnail := thumbnail g;
     store_link := store_link g; end_date := end_date g;
     sale_count := sale_count g; is_best_price := true |}.

Definition store_best (st : acc) (key : pyval) (g : game_info) : acc :=
  {| current_sales := current_sales st;
     best_prices := bp_set (best_prices st) key (mark_best g);
     skipped_scam := skipped_scam st |}.

(** The locals read off a record at the top of the loop body. *)
Definition get_game_id (d : dict) : pyval := dict_get d "game_id" PNone.
Definition get_end_dt (d : dict) : pyval :=
  py_or (dict_get d "end_dt" PNone) (PStr "").
Definition get_discount_rt (d : dict) : pyval :=
  py_or (dict_get d "discount_rt" PNone) (PNum 0).
Definition get_sale_price (d : dict) : pyval :=
  py_or (dict_get d "sale_price_va" PNone) (PNum 0).
Definition get_full_price (d : dict) : pyval :=
  py_or (dict_get d "full_price_va" PNone) (PNum 0).
Definition get_sale_count (d : dict) : pyval := dict_get d "sale_cn" (PNum 0).
Definition get_title (d : dict) : pyval := dict_get d "title_nm" (PStr "").

Section Classify.

(** [str.lower], and the value of [datetime.now().strftime('%Y%m%d')]. *)
Variable lower : string -> string.
Variable today : string.

(** One turn of [for item in all_sales]. *)
Definition process_item (st : acc) (item : pyval) : result acc :=
  d <- dict_receiver item ;;
  let game_id := get_game_id d in
  let end_dt := get_end_dt d in
  let discount_rt := get_discount_rt d in
  let sale_price := get_sale_price d in
  let full_price := get_full_price d in
  let sale_count := get_sale_count d in
  (* 1 *)
  discount <- num_operand discount_rt ;;
  if Qltb f1_0 discount then Ok (skip st) else
  (* 2 *)
  full <- num_operand full_price ;;
  if Qltb 500000 full then Ok (skip st) else
  (* 3 *)
  expensive <- (if Qle_bool f0_9 discount
                then price <- num_operand sale_price ;; Ok (Qltb 30000 price)
                else Ok false) ;;
  if expensive then Ok (skip st) else
  (* 4 *)
  count <- num_operand sale_count ;;
  if Qltb count 3 && Qle_bool f0_95 discount then Ok (skip st) else
  (* 5 *)
  title_nm <- str_receiver (get_title d) ;;
  let title := lower title_nm in
  if Qle_bool f0_95 discount
     && existsb (fun kw => contains kw title) scam_keywords
  then Ok (skip st) else
  let game_info :=
    {| game_id := game_id;
       title := dict_get d "title_nm" PNone;
       current_price := sale_price;
       original_price := full;
       discount_rate := discount;
       thumbnail := dict_get d "img_lk" PNone;
       store_link := dict_get d "store_lk" PNone;
       end_date := end_dt;
       sale_count := count;
       is_best_price := false |} in
  end_s <- str_operand end_dt ;;
  let st1 :=
    if String.leb today end_s || String.eqb end_s ""
    then if truthy discount_rt && Qltb 0 discount
         then append_current st game_info
         else st
    else st in
  if truthy game_id && truthy sale_price then
    price <- num_operand sale_price ;;
    if Qltb 0 price then
      if hashable game_id then
        match bp_lookup (best_prices st1) game_id with
        | None => Ok (store_best st1 game_id game_info)
        | Some best =>
            stored <- num_operand (current_price best) ;;
            if Qltb price stored
            then Ok (store_best st1 game_id game_info)
            else Ok st1
        end
      else Raise TypeError
    else Ok st1
  else Ok st1.

(** The whole loop: the first exception ends it. *)
Fixpoint classify_from (st : acc) (all_sales : list pyval) : result acc :=
  match all_sales with
  | [] => Ok st
  | item :: rest => st' <- process_item st item ;; classify_from st' rest
  end.

Definition classify (all_sales : list pyval) : result acc :=
  classify_from acc_init all_sales.

End Classify.

(** ** Sorting and capping

    [list.sort(key=..., reverse=True)] is stable: descending keys, equal
    keys in their original order.  That is what it does on keys that are
    totally ordered, as the numbers of the model are.  The keys of
    [current_sales] always are: each has passed [discount_rt > 0], which
    a [NaN] does not.  A [sale_count], and the [discount_rate] of a best
    price, can be a [NaN] in Python, and among such keys [list.sort]
    promises a permutation and no order.  Of [top_sales] and
    [best_prices] the properties stated below of every run therefore use
    nothing but that the sort permutes its list; their order is read
    only off concrete runs, whose keys are plain numbers. *)
Section Sort.
Context {A : Type} (key : A -> Q).

Fixpoint insert_desc (x : A) (l : list A) : list A :=
  match l with
  | [] => [x]
  | y :: l' => if Qltb (key x) (key y) then y :: insert_desc x l' else x :: l
  end.

Definition sort_desc (l : list A) : list A := fold_right insert_desc [] l.
End Sort.

Record stats_t : Type := {
  total_fetched : nat;
  current_count : nat;
  top_count : nat;
  best_prices_count : nat
}.

Module Snapshot.
Record t : Type := {
  updated_at : string;
  current_sales : list game_info;
  top_sales : list game_info;
  best_prices : list game_info;
  stats : stats_t
}.
End Snapshot.

(** The order of a list sorted that way: no smaller key comes first. *)
Definition no_smaller {A : Type} (key : A -> Q) (a b : A) : Prop :=
  (key b <= key a)%Q.

(** The sorted views, before the caps of [result]. *)
Definition sorted_current (st : acc) : list game_info :=
  sort_desc discount_rate (current_sales st).

Definition popular_sales (st : acc) : list game_info :=
  sort_desc sale_count
    (filter (fun g => Qle_bool f0_5 (discount_rate g)) (sorted_current st)).

Definition top_sales (st : acc) : list game_info := firstn 50 (popular_sales st).

Definition best_prices_list (st : acc) : list game_info :=
  sort_desc discount_rate (map snd (best_prices st)).

(** The [result] dictionary. *)
Definition make_result (now : string) (all_sales : list pyval) (st : acc)
  : Snapshot.t :=
  {| Snapshot.updated_at := now;
     Snapshot.current_sales := firstn 500 (sorted_current st);
     Snapshot.top_sales := firstn 50 (top_sales st);
     Snapshot.best_prices := firstn 200 (best_prices_list st);
     Snapshot.stats :=
       {| total_fetched := List.length all_sales;
          current_count := List.length (sorted_current st);
          top_count := List.length (top_sales st);
          best_prices_count := List.length (best_prices_list st) |} |}.

(** ** The fetch loop *)

(** What one [requests.get] and the [response.json()] after it come to:
    [RequestFails] when the request raises; otherwise the status code,
    and the decoded body, [None] when decoding raises. *)
Inductive response : Type :=
| RequestFails
| Reply (status_code : Z) (json : option pyval).

(** The lines the command writes to its output. *)
Inductive log_event : Type :=
| LogStart (target_count : Z)
| LogPageFailed (page status_code : Z)
| LogNoMoreData
| LogPageDone (page : Z) (total : nat)
| LogError
| LogFiltered (skipped_scam : nat)
| LogComplete (fetched current top best : nat)
| LogLegacyUpdated
| LogLegacyFailed.

Section Fetch.

(** The endpoint, as a function of the [page] and [size] parameters. *)
Variable server : Z -> Z -> response.
Variable target_count batch_size : Z.

(** [while len(all_sales) < target_count]; every [break] and the exit of
    the loop give [Some]; [None] is a loop cut short by [fuel]. *)
Fixpoint fetch_loop (fuel : nat) (page : Z) (all_sales : list pyval)
  (log : list log_event) : option (list pyval * list log_event) :=
  if Z.of_nat (List.length all_sales) <? target_count then
    match fuel with
    | O => None
    | S fuel' =>
        match server page batch_size with
        | RequestFails => Some (all_sales, log ++ [LogError])
        | Reply status_code json =>
            if negb (status_code =? 200)
            then Some (all_sales, log ++ [LogPageFailed page status_code])
            else
              match json with
              | None => Some (all_sales, log ++ [LogError])
              | Some data =>
                  match dict_receiver data with
                  | Raise _ => Some (all_sales, log ++ [LogError])
                  | Ok d =>
                      let items := dict_get d "list" (PList []) in
                      if negb (truthy items)
                      then Some (all_sales, log ++ [LogNoMoreData])
                      else
                        match iterate items with
                        | Raise _ => Some (all_sales, log ++ [LogError])
                        | Ok l =>
                            let all_sales' := all_sales ++ l in
                            let log' :=
                              if page mod 5 =? 0
                              then log ++ [LogPageDone page
                                             (List.length all_sales')]
                              else log in
                            fetch_loop fuel' (page + 1) all_sales' log'
                        end
                  end
              end
        end
    end
  else Some (all_sales, log).

(** Every turn that does not break adds an item, so [target_count] turns
    are enough (see [fetch_loop_fuel]). *)
Definition fetch (log : list log_event) : list pyval * list log_event :=
  match fetch_loop (Z.to_nat target_count) 1 [] log with
  | Some r => r
  | None => ([], log)
  end.

End Fetch.

(** ** The two files and the run *)

(** What a file holds: text the run found there, a document the run wrote
    in full, or the first [written] characters of a document whose write
    failed after [open(path, 'w')] had emptied the file. *)
Inductive payload : Type :=
| PrimaryDoc (r : Snapshot.t)
| LegacyDoc (l : list game_info).

Inductive file : Type :=
| Previous (text : string)
| Written (p : payload)
| Cut (p : payload) (written : nat).

Record fs : Type := {
  primary_file : option file;
  legacy_file : option file
}.

(** How the operating system answers [open(path, 'w')] and the writes of
    [json.dump]: all succeed, [open] raises [IOError], or a write raises
    it after [written] characters. *)
Inductive io : Type :=
| IoOk
| OpenFails
| WriteFails (written : nat).

(** [with open(path, 'w') as f: json.dump(p, f)]: the file after it, and
    whether [IOError] was raised. *)
Definition write_file (o : io) (p : payload) (old : option file)
  : option file * bool :=
  match o with
  | IoOk => (Some (Written p), false)
  | OpenFails => (old, true)
  | WriteFails n => (Some (Cut p n), true)
  end.

Record options : Type := {
  count : Z;
  batch_size : Z
}.

(** Everything outside the command that a run depends on. *)
Record world : Type := {
  server : Z -> Z -> response;
  today : string;
  now : string;
  primary_io : io;
  legacy_io : io
}.

(** A finished run: the exception that left [handle], if any, the files
    and the output. *)
Record outcome : Type := {
  raised : option exn;
  files : fs;
  log : list log_event
}.

Section Handle.

Variable lower : string -> string.

Definition handle (w : world) (opts : options) (files0 : fs) : outcome :=
  let target_count := count opts in
  let batch_size := Z.min (batch_size opts) 100 in
  let (all_sales, log1) :=
    fetch (server w) target_count batch_size [LogStart target_count] in
  match classify lower (today w) all_sales with
  | Raise e => {| raised := Some e; files := files0; log := log1 |}
  | Ok st =>
      let log2 := log1 ++ [LogFiltered (skipped_scam st)] in
      let result := make_result (now w) all_sales st in
      let (primary, failed) :=
        write_file (primary_io w) (PrimaryDoc result) (primary_file files0) in
      if failed then
        {| raised := Some CommandError;
           files := {| primary_file := primary;
                       legacy_file := legacy_file files0 |};
           log := log2 |}
      else
        let log3 :=
          log2 ++ [LogComplete (List.length all_sales)
                     (List.length (sorted_current st))
                     (List.length (top_sales st))
                     (List.length (best_prices_list st))] in
        let (legacy, failed') :=
          write_file (legacy_io w)
            (LegacyDoc (slice_to target_count (sorted_current st)))
            (legacy_file files0) in
        {| raised := None;
           files := {| primary_file := primary; legacy_file := legacy |};
           log := log3 ++ [if failed' then LogLegacyFailed
                           else LogLegacyUpdated] |}
  end.

End Handle.

(** ** Vocabulary of the properties *)

(** Comparisons of a stored value with a number, as Python decides them
    when they do not raise. *)
Definition num_gt (v : pyval) (c : Q) : Prop :=
  exists q, as_num v = Some q /\ (c < q)%Q.
Definition num_ge (v : pyval) (c : Q) : Prop :=
  exists q, as_num v = Some q /\ (c <= q)%Q.
Definition num_lt (v : pyval) (c : Q) : Prop :=
  exists q, as_num v = Some q /\ (q < c)%Q.

Definition Substring (kw s : string) : Prop :=
  exists pre post, s = (pre ++ kw ++ post)%string.

(** The five rules of the filter, on the values the loop reads off a
    record: [discount_rate] is [get_discount_rt], [original_price] is
    [get_full_price], [current_price] is [get_sale_price], [sale_count] is
    [get_sale_count] and the title is [get_title]. *)
Definition rule1 (d : dict) : Prop := num_gt (get_discount_rt d) f1_0.
Definition rule2 (d : dict) : Prop := num_gt (get_full_price d) 500000.
Definition rule3 (d : dict) : Prop :=
  num_ge (get_discount_rt d) f0_9 /\ num_gt (get_sale_price d) 30000.
Definition rule4 (d : dict) : Prop :=
  num_lt (get_sale_count d) 3 /\ num_ge (get_discount_rt d) f0_95.
Definition rule5 (lower : string -> string) (d : dict) : Prop :=
  num_ge (get_discount_rt d) f0_95 /\
  exists t kw, get_title d = PStr t /\ In kw scam_keywords /\
               Substring kw (lower t).

Definition anomalous (lower : string -> string) (d : dict) : Prop :=
  rule1 d \/ rule2 d \/ rule3 d \/ rule4 d \/ rule5 lower d.

(** A record of the boundary cases: the given discount and full price, a
    low sale price, ten sales, a plain title. *)
Definition plain_fields (discount full : Q) : dict :=
  [("game_id", PStr "100"); ("title_nm", PStr "Plain Game");
   ("discount_rt", PNum discount); ("sale_price_va", PNum 1000);
   ("full_price_va", PNum full); ("sale_cn", PNum 10);
   ("end_dt", PStr "")].

Definition plain_record (discount full : Q) : pyval :=
  PDict (plain_fields discount full).

(** The [game_info] the loop builds from a record once its discount, full
    price and sale count have passed their numeric comparisons. *)
Definition info_of (d : dict) : option game_info :=
  match as_num (get_discount_rt d), as_num (get_full_price d),
        as_num (get_sale_count d) with
  | Some discount, Some full, Some count =>
      Some {| game_id := get_game_id d;
              title := dict_get d "title_nm" PNone;
              current_price := get_sale_price d;
              original_price := full;
              discount_rate := discount;
              thumbnail := dict_get d "img_lk" PNone;
              store_link := dict_get d "store_lk" PNone;
              end_date := get_end_dt d;
              sale_count := count;
              is_best_price := false |}
  | _, _, _ => None
  end.

(** The test that puts a built [game_info] into [current_sales]. *)
Definition is_current (today : string) (g : game_info) : bool :=
  match end_date g with
  | PStr e => (String.leb today e || String.eqb e "")
              && Qltb 0 (discount_rate g)
  | _ => false
  end.

(** The price under which a built [game_info] competes for its
    [best_prices] entry: [game_id and sale_price and sale_price > 0]. *)
Definition tracked_price (g : game_info) : option Q :=
  if truthy (game_id g) && truthy (current_price g) then
    match as_num (current_price g) with
    | Some p => if Qltb 0 p then Some p else None
    | None => None
    end
  else None.

(** The effect of one kept record on the [best_prices] dictionary. *)
Definition update_best (bp : list (pyval * game_info)) (g : game_info)
  : list (pyval * game_info) :=
  match tracked_price g with
  | None => bp
  | Some p =>
      match bp_lookup bp (game_id g) with
      | None => bp_set bp (game_id g) (mark_best g)
      | Some best =>
          match as_num (current_price best) with
          | Some stored =>
              if Qltb p stored then bp_set bp (game_id g) (mark_best g)
              else bp
          | None => bp
          end
      end
  end.

Definition keep (today : string) (st : acc) (g : game_info) : acc :=
  {| current_sales :=
       current_sales st ++ (if is_current today g then [g] else []);
     best_prices := update_best (best_prices st) g;
     skipped_scam := skipped_scam st |}.

(** The scam counter after a step, when the step did not raise. *)
Definition tally (r : result acc) : option nat :=
  match r with
  | Ok st => Some (skipped_scam st)
  | Raise _ => None
  end.

(** What the turn of a kept record has checked on its way: the end date
    and the title are strings, and a [game_id] used as a key of
    [best_prices] is hashable. *)
Definition kept_shape (d : dict) (g : game_info) : Prop :=
  (exists e, end_date g = PStr e) /\
  (exists t, get_title d = PStr t) /\
  (tracked_price g <> None -> hashable (game_id g) = true).

(** The filtered input: the [game_info]s of the records that the filter
    lets through, in fetch order. *)
Inductive kept_of (lower : string -> string)
  : list pyval -> list game_info -> Prop :=
| kept_nil : kept_of lower [] []
| kept_rejected d items kept :
    anomalous lower d -> kept_of lower items kept ->
    kept_of lower (PDict d :: items) kept
| kept_passed d g items kept :
    ~ anomalous lower d -> info_of d = Some g ->
    kept_shape d g -> kept_of lower items kept ->
    kept_of lower (PDict d :: items) (g :: kept).

(** ** Concrete runs *)

(** An endpoint that serves a fixed catalogue page by page. *)
Definition paged (catalogue : list pyval) (page size : Z) : response :=
  Reply 200
    (Some (PDict [("list",
                   PList (firstn (Z.to_nat size)
                            (skipn (Z.to_nat ((page - 1) * size))
                               catalogue)))])).

Definition sale_record (id : Z) (discount : Q) (sale_cn : Z) : pyval :=
  PDict [("game_id", PNum (inject_Z id)); ("title_nm", PStr "Game");
         ("discount_rt", PNum discount); ("sale_price_va", PNum 1000);
         ("full_price_va", PNum 5000); ("sale_cn", PNum (inject_Z sale_cn));
         ("end_dt", PStr "")].

(** Games 1 to 500 at 80% off with ten sales each, then game 501 at 50%
    off with 99999 sales. *)
Definition catalogue501 : list pyval :=
  map (fun i => sale_record (Z.of_nat i) (4 # 5) 10) (seq 1 500)
  ++ [sale_record 501 (1 # 2) 99999].

Definition world_of (catalogue : list pyval) : world :=
  {| server := paged catalogue; today := "20261103";
     now := "2026-11-03T09:00:00"; primary_io := IoOk; legacy_io := IoOk |}.

Definition default_options : options := {| count := 2000; batch_size := 100 |}.

Definition no_files : fs := {| primary_file := None; legacy_file := None |}.

(** The snapshot a run left in the primary file, if it wrote one. *)
Definition snapshot_of (o : outcome) : option Snapshot.t :=
  match primary_file (files o) with
  | Some (Written (PrimaryDoc r)) => Some r
  | _ => None
  end.

(** Six games, which an endpoint asked for pages of two serves on three
    pages, the fourth being empty. *)
Definition catalogue6 : list pyval :=
  map (fun i => sale_record (Z.of_nat i) (1 # 2) 10) (seq 1 6).

(** A sale that is on: a positive discount, and an end date that is empty
    or not before [today] in the order of strings. *)
Definition current_on (today : string) (g : game_info) : Prop :=
  (0 < discount_rate g)%Q /\
  exists e, end_date g = PStr e /\ (e = "" \/ String.leb today e = true).

(** ** What the fetch loop is to do *)

Definition status_200 (s : Z) : bool := s =? 200.
Definition status_2xx (s : Z) : bool := (200 <=? s) && (s <=? 299).

(** What a requested page comes to, in the terms of the contract of the
    fetch loop: the items it adds to [all_sales], no items, or a failed
    request, be it an exception (raised by the request, by decoding the
    body, or by reading its list) or a status that [ok_status] refuses. *)
Inductive page_outcome : Type :=
| Items (l : list pyval)
| NoItems
| Failed.

Definition outcome_of (ok_status : Z -> bool) (r : response) : page_outcome :=
  match r with
  | RequestFails => Failed
  | Reply status_code json =>
      if ok_status status_code then
        match json with
        | Some (PDict d) =>
            let items := dict_get d "list" (PList []) in
            if truthy items then
              match iterate items with
              | Ok l => Items l
              | Raise _ => Failed
              end
            else NoItems
        | _ => Failed
        end
      else Failed
  end.

Definition stops (o : page_outcome) : Prop :=
  match o with
  | Items _ => False
  | _ => True
  end.

Section FetchSpec.

Variable ok_status : Z -> bool.
Variable server : Z -> Z -> response.
Variable target_count batch_size : Z.

Definition page_outcome_at (page : nat) : page_outcome :=
  outcome_of ok_status (server (Z.of_nat page) batch_size).

Definition items_at (page : nat) : list pyval :=
  match page_outcome_at page with
  | Items l => l
  | _ => []
  end.

(** The concatenation of pages 1 to [n]. *)
Definition pages_upto (n : nat) : list pyval := flat_map items_at (seq 1 n).

(** [result] is what a loop returns that asks for pages 1, 2, ... and
    stops exactly when the items so far reach the target, a page has no
    items, or a request fails: for some [n], pages 1 to [n] were all
    asked for with the target not yet reached and none of them stopped
    the loop, [result] is their concatenation, and either [result]
    reaches the target or page [n + 1] stops the loop. *)
Definition fetched (result : list pyval) : Prop :=
  exists n : nat,
    result = pages_upto n /\
    (forall k, (k < n)%nat ->
               Z.of_nat (List.length (pages_upto k)) < target_count /\
               ~ stops (page_outcome_at (S k))) /\
    (target_count <= Z.of_nat (List.length result) \/
     stops (page_outcome_at (S n))).

End FetchSpec.

(** An endpoint that answers every request with status 201 and two
    items. *)
Definition server_201 (page size : Z) : response :=
  Reply 201 (Some (PDict [("list", PList [sale_record 1 (1 # 2) 10;
                                          sale_record 2 (1 # 2) 10])])).

(** ** Runs whose primary write fails *)

(** The six-game run with the primary write answered by [o]. *)
Definition failing_world (o : io) : world :=
  {| server := paged catalogue6; today := "20261103";
     now := "2026-11-03T09:00:00"; primary_io := o; legacy_io := IoOk |}.

(** Both files as an earlier run left them. *)
Definition old_files : fs :=
  {| primary_file := Some (Previous "snapshot of the day before");
     legacy_file := Some (Previous "list of the day before") |}.

(** The output shows that the legacy write was tried. *)
Definition legacy_attempted (o : outcome) : Prop :=
  In LogLegacyUpdated (log o) \/ In LogLegacyFailed (log o).

(** The lines the fetch loop writes. *)
Definition fetch_event (ev : log_event) : Prop :=
  match ev with
  | LogError | LogPageFailed _ _ | LogNoMoreData | LogPageDone _ _ => True
  | _ => False
  end.

(** ** Records with a null entry *)

(** A discount of 320% with [sale_cn] and [title_nm] both null. *)
Definition null_scam_fields : dict :=
  [("game_id", PStr "7"); ("title_nm", PNone); ("discount_rt", PNum (16 # 5));
   ("sale_price_va", PNum 1000); ("full_price_va", PNum 5000);
   ("sale_cn", PNone); ("end_dt", PStr "")].

(** A plain sale at 50% with [sale_cn] null. *)
Definition null_count_fields : dict :=
  [("game_id", PStr "8"); ("title_nm", PStr "Game");
   ("discount_rt", PNum (1 # 2)); ("sale_price_va", PNum 1000);
   ("full_price_va", PNum 5000); ("sale_cn", PNone); ("end_dt", PStr "")].

(** The failure of a run on the record being processed: the exception is
    the one that record raises, and no file is touched. *)
Definition aborted_by (e : exn) (files0 : fs) (o : outcome) : Prop :=
  raised o = Some e /\ (e = TypeError \/ e = AttributeError) /\
  files o = files0.

(** ** Best prices *)

(** A record of the filtered input that competes for the [best_prices]
    entry of [gid] with the price [p]: it has that [game_id], as a
    dictionary key, and [p] is its [current_price], a positive number. *)
Definition occurrence (kept : list game_info) (gid : pyval) (p : Q) : Prop :=
  exists g, In g kept /\ key_eqb (game_id g) gid = true /\
            as_num (current_price g) = Some p /\ (0 < p)%Q.

(** [p] is the least price among the occurrences of [gid]. *)
Definition min_price (kept : list game_info) (gid : pyval) (p : Q) : Prop :=
  occurrence kept gid p /\
  forall p', occurrence kept gid p' -> (p <= p')%Q.

(** No two entries under the same [game_id]. *)
Definition distinct_ids (l : list game_info) : Prop :=
  ForallOrdPairs (fun a b => key_eqb (game_id a) (game_id b) = false) l.

(** Scenario C: game "100" at 1000, then at 800. *)
Definition priced_record (id : string) (price : Q) : pyval :=
  PDict [("game_id", PStr id); ("title_nm", PStr "Game");
         ("discount_rt", PNum (1 # 2)); ("sale_price_va", PNum price);
         ("full_price_va", PNum 2000); ("sale_cn", PNum 10);
         ("end_dt", PStr "")].

Definition catalogue_c : list pyval :=
  [priced_record "100" 1000; priced_record "100" 800].

(** What holds of the [best_prices] dictionary [bp] once the kept records
    [ks] have been through the loop: its keys are pairwise different;
    the entry under a key carries that key as [game_id] and is the marked
    copy of a record of [ks] whose price no record of [ks] competing
    under that key undercuts; and every competing record of [ks] finds an
    entry under its [game_id]. *)
Record best_inv (bp : list (pyval * game_info)) (ks : list game_info)
  : Prop := {
  inv_distinct :
    ForallOrdPairs (fun a b => key_eqb a b = false) (map fst bp);
  inv_refl : Forall (fun k => key_eqb k k = true) (map fst bp);
  inv_entry : forall k g,
    bp_lookup bp k = Some g ->
    key_eqb (game_id g) k = true /\
    exists p, tracked_price g = Some p /\
      (exists g0, In g0 ks /\ g = mark_best g0) /\
      (forall g' p', In g' ks -> tracked_price g' = Some p' ->
                     key_eqb (game_id g') k = true -> (p <= p')%Q);
  inv_found : forall g',
    In g' ks -> tracked_price g' <> None ->
    bp_lookup bp (game_id g') <> None
}.

(** ** Records without [game_id] or title *)

(** [key in d] *)
Definition has_key (d : dict) (key : string) : bool :=
  existsb (fun kv => String.eqb (fst kv) key) d.

Definition numeric (v : pyval) : bool :=
  match as_num v with
  | Some _ => true
  | None => false
  end.

Definition is_str (v : pyval) : bool :=
  match v with
  | PStr _ => true
  | _ => false
  end.

(** Every entry that the loop compares, lowers or hashes has the type the
    operation needs. *)
Definition typed (d : dict) : bool :=
  numeric (get_discount_rt d) && numeric (get_full_price d)
  && numeric (get_sale_price d) && numeric (get_sale_count d)
  && is_str (get_title d) && is_str (get_end_dt d)
  && hashable (get_game_id d).

(** The prices stored in [best_prices] are numbers. *)
Definition stored_numeric (st : acc) : Prop :=
  Forall (fun kv => numeric (current_price (snd kv)) = true) (best_prices st).

(** A sale at 50% and a fake at 320%, neither with [game_id] or
    [title_nm]. *)
Definition anonymous_fields (discount : Q) : dict :=
  [("discount_rt", PNum discount); ("sale_price_va", PNum 1000);
   ("full_price_va", PNum 2000); ("sale_cn", PNum 10); ("end_dt", PStr "")].

Definition anonymous_catalogue : list pyval :=
  [PDict (anonymous_fields (1 # 2)); PDict (anonymous_fields (16 # 5))].

(** ** What a finished run leaves *)

(** The snapshot [r] is what the run [o] wrote to the primary file. *)
Definition wrote (o : outcome) (r : Snapshot.t) : Prop :=
  primary_file (files o) = Some (Written (PrimaryDoc r)).

(** A built record on which none of the five rules of the filter
    holds. *)
Definition within_rules (lower : string -> string) (g : game_info) : Prop :=
  (discount_rate g <= f1_0)%Q /\
  (original_price g <= 500000)%Q /\
  ~ ((f0_9 <= discount_rate g)%Q /\ num_gt (current_price g) 30000) /\
  ~ ((sale_count g < 3)%Q /\ (f0_95 <= discount_rate g)%Q) /\
  forall t, title g = PStr t ->
            ~ ((f0_95 <= discount_rate g)%Q /\
               exists kw, In kw scam_keywords /\ Substring kw (lower t)).


(** The run over the six-game catalogue, with the default options and no
    file yet. *)
Definition run6 : outcome :=
  handle ascii_lower (world_of catalogue6) default_options no_files.

(** The entries of [l] whose key has the value [c]. *)
Definition with_key {A : Type} (key : A -> Q) (c : Q) (l : list A) : list A :=
  filter (fun x => Qeq_bool (key x) c) l.

(** The six-game run with the legacy write refused at [open]. *)
Definition legacy_failing_world : world :=
  {| server := paged catalogue6; today := "20261103";
     now := "2026-11-03T09:00:00"; primary_io := IoOk;
     legacy_io := OpenFails |}.

(** The output of a run that gets to the end, after what the fetch loop
    wrote. *)
Definition closing_lines (all_sales : list pyval) (st : acc)
  (legacy_failed : bool) : list log_event :=
  [LogFiltered (skipped_scam st);
   LogComplete (List.length all_sales) (List.length (sorted_current st))
     (List.length (top_sales st)) (List.length (best_prices_list st));
   if legacy_failed then LogLegacyFailed else LogLegacyUpdated].

(** An item that is not a JSON object. *)
Definition not_object (item : pyval) : Prop :=
  match item with
  | PDict _ => False
  | _ => True
  end.

(** A catalogue with a string among its records. *)
Definition catalogue_with_text : list pyval :=
  [sale_record 1 (1 # 2) 10; PStr "maintenance"; sale_record 2 (1 # 2) 10].

(** The snapshot of a run that fetched nothing. *)
Definition empty_snapshot (now : string) : Snapshot.t :=
  {| Snapshot.updated_at := now;
     Snapshot.current_sales := [];
     Snapshot.top_sales := [];
     Snapshot.best_prices := [];
     Snapshot.stats :=
       {| total_fetched := 0; current_count := 0; top_count := 0;
          best_prices_count := 0 |} |}.

(** An endpoint that is down: every request raises. *)
Definition server_down (page size : Z) : response := RequestFails.

Definition world_down : world :=
  {| server := server_down; today := "20261103";
     now := "2026-11-03T09:00:00"; primary_io := IoOk; legacy_io := IoOk |}.

(** [e] is the marked copy of the first record of [kept] that competes
    under the key [k] at the least price: the records before it that
    compete under [k] cost more, those after it cost no less. *)
Definition first_best (kept : list game_info) (k : pyval) (e : game_info)
  : Prop :=
  exists before g0 after p,
    kept = before ++ g0 :: after /\
    e = mark_best g0 /\
    key_eqb (game_id g0) k = true /\
    tracked_price g0 = Some p /\
    (forall g' p', In g' before -> key_eqb (game_id g') k = true ->
                   tracked_price g' = Some p' -> (p < p')%Q) /\
    (forall g' p', In g' after -> key_eqb (game_id g') k = true ->
                   tracked_price g' = Some p' -> (p <= p')%Q).

(** ** The crawler script

    [crawl_steam_sales_fast] of [steamsale.py]: the same endpoint and the
    same paging as the command, with the target and the page size fixed,
    the records stored as they come, and the result cut at the target
    before it is written.  The script calls the function once a day for
    ever; one call is modelled. *)
Module Crawler.

Definition TARGET_COUNT : Z := 2000.
Definition BATCH_SIZE : Z := 100.

(** The dictionary stored for a record: seven entries read with
    [item.get], [None] for a missing key. *)
Record game_info : Type := {
  game_id : pyval;
  title : pyval;
  current_price : pyval;
  original_price : pyval;
  discount_rate : pyval;
  thumbnail : pyval;
  store_link : pyval
}.

Definition info (d : dict) : game_info :=
  {| game_id := dict_get d "game_id" PNone;
     title := dict_get d "title_nm" PNone;
     current_price := dict_get d "sale_price_va" PNone;
     original_price := dict_get d "full_price_va" PNone;
     discount_rate := dict_get d "discount_rt" PNone;
     thumbnail := dict_get d "img_lk" PNone;
     store_link := dict_get d "store_lk" PNone |}.

(** The lines the script prints. *)
Inductive printed : Type :=
| Started (target : Z)
| PageFailed (page status_code : Z)
| NoMoreData
| PageDone (page : Z) (total : nat)
| ErrorCaught
| Completed (saved : nat).

(** [for item in items: ... collected_data.append(game_info)]: the list
    after the loop, and whether an [item.get] raised, which ends it. *)
Fixpoint collect (collected_data : list game_info) (items : list pyval)
  : list game_info * bool :=
  match items with
  | [] => (collected_data, false)
  | item :: rest =>
      match dict_receiver item with
      | Ok d => collect (collected_data ++ [info d]) rest
      | Raise _ => (collected_data, true)
      end
  end.

Section Crawl.

Variable server : Z -> Z -> response.

(** [while len(collected_data) < TARGET_COUNT], with fuel as for the
    command's loop. *)
Fixpoint crawl_loop (fuel : nat) (page : Z) (collected_data : list game_info)
  (out : list printed) : option (list game_info * list printed) :=
  if Z.of_nat (List.length collected_data) <? TARGET_COUNT then
    match fuel with
    | O => None
    | S fuel' =>
        match server page BATCH_SIZE with
        | RequestFails => Some (collected_data, out ++ [ErrorCaught])
        | Reply status_code json =>
            if negb (status_code =? 200)
            then Some (collected_data, out ++ [PageFailed page status_code])
            else
              match json with
              | None => Some (collected_data, out ++ [ErrorCaught])
              | Some data =>
                  match dict_receiver data with
                  | Raise _ => Some (collected_data, out ++ [ErrorCaught])
                  | Ok d =>
                      let items := dict_get d "list" (PList []) in
                      if negb (truthy items)
                      then Some (collected_data, out ++ [NoMoreData])
                      else
                        match iterate items with
                        | Raise _ =>
                            Some (collected_data, out ++ [ErrorCaught])
                        | Ok l =>
                            let (collected_data', raised) :=
                              collect collected_data l in
                            if raised
                            then Some (collected_data',
                                       out ++ [ErrorCaught])
                            else
                              crawl_loop fuel' (page + 1) collected_data'
                                (out ++ [PageDone page
                                           (List.length collected_data')])
                        end
                  end
              end
        end
    end
  else Some (collected_data, out).

Definition crawl : list game_info * list printed :=
  match crawl_loop (Z.to_nat TARGET_COUNT) 1 [] [Started TARGET_COUNT] with
  | Some r => r
  | None => ([], [Started TARGET_COUNT])
  end.

End Crawl.

(** The file of the script, [users/steam_sale_dataset_fast.json], named as
    the command's legacy file. *)
Inductive file : Type :=
| Previous (text : string)
| Written (l : list game_info)
| Cut (l : list game_info) (written : nat).

(** A finished call: whether the [IOError] of the write, which nothing
    catches, left the function; the file; what was printed. *)
Record outcome : Type := {
  raised : bool;
  file_after : option file;
  output : list printed
}.

Definition crawl_steam_sales_fast (server : Z -> Z -> response) (o : io)
  (file0 : option file) : outcome :=
  let (collected_data, out) := crawl server in
  let final_result := slice_to TARGET_COUNT collected_data in
  match o with
  | IoOk =>
      {| raised := false; file_after := Some (Written final_result);
         output := out ++ [Completed (List.length final_result)] |}
  | OpenFails => {| raised := true; file_after := file0; output := out |}
  | WriteFails n =>
      {| raised := true; file_after := Some (Cut final_result n);
         output := out |}
  end.

End Crawler.

(** The objects at the head of a list of items, up to the first item that
    is not one. *)
Fixpoint leading_objects (items : list pyval) : list dict :=
  match items with
  | PDict d :: rest => d :: leading_objects rest
  | _ => []
  end.

(** ** The loader's list of games

    The part of [Command.handle] of [load_games.py] that puts together,
    from the snapshot document, the games to load: the current sales,
    then the best prices of games not yet listed.  What follows it in the
    source goes through a regular expression and the database, and is not
    modelled. *)
Module Loader.








End Loader.




(** ** Records on which the filter raises *)

(** A soundtrack at 96% off whose [sale_cn] is null, and the catalogue
    that holds nothing else. *)
Definition null_count_ost_fields : dict :=
  [("game_id", PStr "9"); ("title_nm", PStr "Game OST");
   ("discount_rt", PNum (24 # 25)); ("sale_price_va", PNum 1000);
   ("full_price_va", PNum 25000); ("sale_cn", PNone); ("end_dt", PStr "")].

Definition null_count_ost_catalogue : list pyval :=
  [PDict null_count_ost_fields].

(** ** More games than [best_prices] persists *)

(** Games 1 to 200 at 80% off, then game 201 at 50% off, each at a price
    of 1000. *)
Definition catalogue201 : list pyval :=
  map (fun i => sale_record (Z.of_nat i) (4 # 5) 10) (seq 1 200)
  ++ [sale_record 201 (1 # 2) 10].

(** The entries of a list of current sales that [popular_sales] retains:
    a discount of 0.5 or more. *)
Definition half_off (l : list game_info) : list game_info :=
  filter (fun g => Qle_bool f0_5 (discount_rate g)) l.

(** * Properties *)

(** ** Booleans and propositions *)

Lemma Qltb_lt (x y : Q) : Qltb x y = true <-> (x < y)%Q.
Proof.
  unfold Qltb. rewrite negb_true_iff, <- not_true_iff_false, Qle_bool_iff.
  split; [apply Qnot_le_lt | apply Qlt_not_le].
Qed.

Lemma Qltb_ge (x y : Q) : Qltb x y = false <-> (y <= x)%Q.
Proof.
  unfold Qltb. rewrite negb_false_iff. apply Qle_bool_iff.
Qed.

Lemma prefix_app (kw s : string) :
  String.prefix kw s = true <-> exists post, s = (kw ++ post)%string.
Proof.
  revert s. induction kw as [|a kw IH]; intros s; simpl.
  - destruct s; split; eauto.
  - destruct s as [|b s]; simpl.
    + split; [discriminate | intros [post H]; discriminate].
    + destruct (ascii_dec a b) as [->|Hab].
      * rewrite IH. split; intros [post H]; exists post; congruence.
      * split; [discriminate | intros [post H]; congruence].
Qed.

Lemma contains_Substring (kw s : string) :
  contains kw s = true <-> Substring kw s.
Proof.
  induction s as [|c s IH]; cbn [contains].
  - rewrite orb_false_r, prefix_app. split.
    + intros [post H]. exists "", post. exact H.
    + intros [pre [post H]]. destruct pre; [eauto | discriminate].
  - rewrite orb_true_iff, IH, prefix_app. split.
    + intros [[post H] | [pre [post H]]].
      * exists "", post. exact H.
      * exists (String c pre), post. simpl. congruence.
    + intros [pre [post H]]. destruct pre as [|c' pre]; simpl in H.
      * left. eauto.
      * right. exists pre, post. congruence.
Qed.

Lemma keyword_match (title : string) :
  existsb (fun kw => contains kw title) scam_keywords = true <->
  exists kw, In kw scam_keywords /\ Substring kw title.
Proof.
  rewrite existsb_exists. split; intros [kw [Hin H]]; exists kw;
    (split; [exact Hin | apply contains_Substring; exact H]).
Qed.

(** ** One turn of the classification loop *)

Lemma acc_eta (st : acc) :
  st = {| current_sales := current_sales st; best_prices := best_prices st;
          skipped_scam := skipped_scam st |}.
Proof. destruct st; reflexivity. Qed.

Lemma positive_truthy (v : pyval) (q : Q) :
  as_num v = Some q -> Qltb 0 q = true -> truthy v = true.
Proof.
  intros Hv Hq. apply Qltb_lt in Hq.
  destruct v as [|b|x| | |]; simpl in *; try discriminate.
  - destruct b; [reflexivity|]. injection Hv as <-. inversion Hq.
  - injection Hv as ->. apply negb_true_iff, not_true_iff_false.
    rewrite Qeq_bool_iff. intros E. rewrite E in Hq. inversion Hq.
Qed.

(** A turn that does not raise either rejects the record, under one of the
    five rules, or keeps it, under none of them. *)
Lemma process_item_inv lower today st d st' :
  process_item lower today st (PDict d) = Ok st' ->
  (anomalous lower d /\ st' = skip st) \/
  (~ anomalous lower d /\
   exists g, info_of d = Some g /\ kept_shape d g /\
             st' = keep today st g).
Proof.
  unfold process_item, info_of, anomalous, rule1, rule2, rule3, rule4, rule5,
    num_gt, num_ge, num_lt, num_operand.
  cbn [dict_receiver bind].
  destruct (as_num (get_discount_rt d)) as [q|] eqn:Hq; cbn [bind];
    [|discriminate].
  destruct (Qltb f1_0 q) eqn:H1.
  { intros [= <-]. left. split; [|reflexivity].
    left. exists q. split; [reflexivity | apply Qltb_lt, H1]. }
  destruct (as_num (get_full_price d)) as [f|] eqn:Hf; cbn [bind];
    [|discriminate].
  destruct (Qltb 500000 f) eqn:H2.
  { intros [= <-]. left. split; [|reflexivity].
    right; left. exists f. split; [reflexivity | apply Qltb_lt, H2]. }
  match goal with |- context [bind ?c _] => destruct c as [expensive|] eqn:H3 end;
    cbn [bind]; [|discriminate].
  assert (H3' : expensive = true <->
                (exists q', Some q = Some q' /\ (f0_9 <= q')%Q) /\
                (exists p, as_num (get_sale_price d) = Some p /\ (30000 < p)%Q)).
  { destruct (Qle_bool f0_9 q) eqn:H9.
    - destruct (as_num (get_sale_price d)) as [p|]; cbn [bind] in H3;
        [|discriminate].
      injection H3 as <-. rewrite Qltb_lt. split.
      + intros Hp. split; [exists q | exists p]; split; auto.
        apply Qle_bool_iff, H9.
      + intros [_ [p' [[= <-] Hp]]]. exact Hp.
    - injection H3 as <-. split; [discriminate|].
      intros [[q' [[= <-] Hle]] _]. apply Qle_bool_iff in Hle. congruence. }
  clear H3. destruct expensive.
  { intros [= <-]. left. split; [|reflexivity].
    right; right; left. apply H3'. reflexivity. }
  destruct (as_num (get_sale_count d)) as [c|] eqn:Hc; cbn [bind];
    [|discriminate].
  destruct (Qltb c 3 && Qle_bool f0_95 q) eqn:H4.
  { intros [= <-]. left. split; [|reflexivity].
    right; right; right; left. apply andb_true_iff in H4 as [Hlt Hge].
    split; [exists c | exists q]; split; auto;
      [apply Qltb_lt, Hlt | apply Qle_bool_iff, Hge]. }
  destruct (get_title d) as [| | |t| |] eqn:Ht; cbn [str_receiver bind];
    try discriminate.
  destruct (Qle_bool f0_95 q
            && existsb (fun kw => contains kw (lower t)) scam_keywords)
    eqn:H5.
  { intros [= <-]. left. split; [|reflexivity].
    right; right; right; right. apply andb_true_iff in H5 as [Hge Hkw].
    split; [exists q; split; [reflexivity | apply Qle_bool_iff, Hge]|].
    apply keyword_match in Hkw as [kw [Hin Hsub]]. exists t, kw. auto. }
  intros Hrest. right. split.
  { intros [R|[R|[R|[R|R]]]].
    - destruct R as [q' [[= <-] R]]. apply Qltb_lt in R. congruence.
    - destruct R as [f' [[= <-] R]]. apply Qltb_lt in R. congruence.
    - apply H3' in R. discriminate.
    - destruct R as [[c' [[= <-] R1]] [q' [[= <-] R2]]].
      apply Qltb_lt in R1. apply Qle_bool_iff in R2.
      rewrite R1, R2 in H4. discriminate.
    - destruct R as [[q' [[= <-] R1]] [t' [kw [[= <-] [Hin Hsub]]]]].
      apply Qle_bool_iff in R1. rewrite R1 in H5.
      assert (Hkw : existsb (fun kw => contains kw (lower t)) scam_keywords
                    = true) by (apply keyword_match; eauto).
      rewrite Hkw in H5. discriminate. }
  eexists. split; [reflexivity|].
  destruct (get_end_dt d) as [| | |e| |] eqn:He; cbn [str_operand bind] in Hrest;
    try discriminate.
  unfold kept_shape, keep, is_current, update_best, tracked_price.
  cbn [end_date discount_rate game_id current_price].
  set (g := {| game_id := get_game_id d |}) in *.
  assert (Hcur : truthy (get_discount_rt d) && Qltb 0 q = Qltb 0 q).
  { destruct (Qltb 0 q) eqn:H0; [|apply andb_false_r].
    rewrite (positive_truthy _ _ Hq H0). reflexivity. }
  rewrite Hcur in Hrest.
  set (st1 := if String.leb today e || String.eqb e "" then _ else st) in *.
  assert (Hst1 : st1 = {| current_sales :=
                            current_sales st ++
                            (if (String.leb today e || String.eqb e "")
                                && Qltb 0 q then [g] else []);
                          best_prices := best_prices st;
                          skipped_scam := skipped_scam st |}).
  { subst st1. destruct (String.leb today e || String.eqb e "");
      [destruct (Qltb 0 q)|]; cbn [andb]; unfold append_current;
      rewrite ?app_nil_r; try reflexivity; apply acc_eta. }
  clearbody st1. subst st1. cbn [best_prices] in Hrest.
  assert (Hshape : forall P : Prop, P ->
            (exists e0, PStr e = PStr e0) /\
            (exists t0, get_title d = PStr t0) /\ P) by eauto.
  destruct (truthy (get_game_id d) && truthy (get_sale_price d)).
  2: { injection Hrest as <-. split; [apply Hshape; congruence | reflexivity]. }
  destruct (as_num (get_sale_price d)) as [p|]; cbn [bind] in Hrest;
    [|discriminate].
  destruct (Qltb 0 p).
  2: { injection Hrest as <-. split; [apply Hshape; congruence | reflexivity]. }
  destruct (hashable (get_game_id d)); [|discriminate].
  split; [apply Hshape; reflexivity|].
  destruct (bp_lookup (best_prices st) (get_game_id d)) as [best|].
  2: { injection Hrest as <-. reflexivity. }
  destruct (as_num (current_price best)) as [stored|]; cbn [bind] in Hrest;
    [|discriminate].
  destruct (Qltb p stored); injection Hrest as <-; reflexivity.
Qed.

(** ** The whole classification loop *)

(** A loop that ends without an exception has kept exactly the filtered
    input and counted the rest. *)
Lemma classify_from_inv lower today items : forall st st',
  classify_from lower today st items = Ok st' ->
  exists kept,
    kept_of lower items kept /\
    current_sales st' = current_sales st ++ filter (is_current today) kept /\
    best_prices st' = fold_left update_best kept (best_prices st) /\
    (skipped_scam st' + List.length kept =
     skipped_scam st + List.length items)%nat.
Proof.
  induction items as [|item items IH]; intros st st' H; simpl in H.
  - injection H as <-. exists []. simpl. rewrite app_nil_r.
    split; [constructor|]. repeat split.
  - destruct (process_item lower today st item) as [st1|] eqn:H1;
      cbn [bind] in H; [|discriminate].
    destruct item as [| | | | |d]; try discriminate.
    destruct (IH _ _ H) as [kept [Hk [Hc [Hb Hs]]]].
    destruct (process_item_inv _ _ _ _ _ H1)
      as [[Ha ->] | [Hn [g [Hg [He ->]]]]].
    + exists kept. simpl in *. repeat split; auto.
      * constructor; assumption.
      * lia.
    + exists (g :: kept). simpl in *. repeat split; auto.
      * constructor; assumption.
      * rewrite Hc, <- app_assoc. destruct (is_current today g); reflexivity.
      * lia.
Qed.

Lemma classify_inv lower today items st :
  classify lower today items = Ok st ->
  exists kept,
    kept_of lower items kept /\
    current_sales st = filter (is_current today) kept /\
    best_prices st = fold_left update_best kept [] /\
    (skipped_scam st + List.length kept = List.length items)%nat.
Proof.
  intros H. destruct (classify_from_inv _ _ _ _ _ H) as [kept H'].
  exists kept. exact H'.
Qed.

Lemma kept_of_In lower items kept :
  kept_of lower items kept ->
  forall g, In g kept <->
            exists d, In (PDict d) items /\ ~ anomalous lower d /\
                      info_of d = Some g.
Proof.
  induction 1 as [|d items kept Ha Hk IH|d g0 items kept Hn Hg He Hk IH];
    intros g; simpl.
  - split; [tauto | intros [d [[] _]]].
  - rewrite IH. split; intros [d' [Hin Hrest]]; exists d'.
    + tauto.
    + destruct Hin as [[= ->]|Hin]; tauto.
  - rewrite IH. split.
    + intros [<-|[d' [Hin Hrest]]]; [exists d | exists d']; tauto.
    + intros [d' [[[= ->]|Hin] [Hn' Hg']]].
      * left. congruence.
      * right. exists d'. tauto.
Qed.

(** ** Sorting *)

Section SortFacts.
Context {A : Type} (key : A -> Q).

Lemma insert_desc_perm x l : Permutation (insert_desc key x l) (x :: l).
Proof.
  induction l as [|y l IH]; simpl; [reflexivity|].
  destruct (Qltb (key x) (key y)); [|reflexivity].
  rewrite IH. apply perm_swap.
Qed.

Lemma sort_desc_perm l : Permutation (sort_desc key l) l.
Proof.
  induction l as [|x l IH]; simpl; [reflexivity|].
  rewrite insert_desc_perm. constructor. exact IH.
Qed.

Lemma sort_desc_In l x : In x (sort_desc key l) <-> In x l.
Proof.
  split; apply Permutation_in;
    [|symmetry]; apply sort_desc_perm.
Qed.

End SortFacts.

Lemma In_firstn {A : Type} (n : nat) (l : list A) (x : A) :
  In x (firstn n l) -> In x l.
Proof.
  intros H. rewrite <- (firstn_skipn n l). apply in_or_app. left. exact H.
Qed.

(** ** Successful runs *)

(** A run that raises nothing has classified all it fetched and written the
    [result] built from that to the primary file. *)
Lemma handle_success lower w opts files0 :
  raised (handle lower w opts files0) = None ->
  exists all_sales log1 st,
    fetch (server w) (count opts) (Z.min (batch_size opts) 100)
      [LogStart (count opts)] = (all_sales, log1) /\
    classify lower (today w) all_sales = Ok st /\
    primary_io w = IoOk /\
    primary_file (files (handle lower w opts files0)) =
      Some (Written (PrimaryDoc (make_result (now w) all_sales st))).
Proof.
  unfold handle.
  destruct (fetch _ _ _ _) as [all_sales log1].
  destruct (classify lower (today w) all_sales) as [st|e] eqn:Hst;
    [|discriminate].
  destruct (primary_io w); cbn [write_file]; try discriminate.
  destruct (write_file _ _ _) as [legacy failed'].
  cbn [raised files primary_file].
  intros _. exists all_sales, log1, st. auto.
Qed.

(** ** The caps *)

(** C7.  A run that ends well has written a snapshot whose three lists hold
    at most 500, 50 and 200 entries, whatever was fetched. *)
Theorem snapshot_lists_capped lower w opts files0
  (Hrun : raised (handle lower w opts files0) = None) :
  exists r,
    primary_file (files (handle lower w opts files0))
    = Some (Written (PrimaryDoc r)) /\
    (List.length (Snapshot.current_sales r) <= 500)%nat /\
    (List.length (Snapshot.top_sales r) <= 50)%nat /\
    (List.length (Snapshot.best_prices r) <= 200)%nat.
Proof.
  destruct (handle_success _ _ _ _ Hrun) as [all_sales [log1 [st [_ [_ [_ ->]]]]]].
  eexists. split; [reflexivity|]. cbn [make_result Snapshot.current_sales
    Snapshot.top_sales Snapshot.best_prices].
  repeat split; apply firstn_le_length.
Qed.

Lemma snapshot_lists_capped_witness :
  exists r,
    primary_file (files (handle ascii_lower (world_of catalogue6)
                           default_options no_files))
    = Some (Written (PrimaryDoc r)) /\
    (List.length (Snapshot.current_sales r) <= 500)%nat /\
    (List.length (Snapshot.top_sales r) <= 50)%nat /\
    (List.length (Snapshot.best_prices r) <= 200)%nat.
Proof.
  apply (snapshot_lists_capped ascii_lower (world_of catalogue6)
           default_options no_files).
  vm_compute. reflexivity.
Defined.

(** ** The current sales *)

Lemma is_current_on today g : is_current today g = true <-> current_on today g.
Proof.
  unfold is_current, current_on. destruct (end_date g) as [| | |e| |];
    try (split; [discriminate | intros [_ [e' [[=] _]]]]).
  rewrite andb_true_iff, orb_true_iff, Qltb_lt, String.eqb_eq. split.
  - intros [He Hd]. split; [exact Hd|]. exists e. tauto.
  - intros [Hd [e' [[= <-] He]]]. tauto.
Qed.

Section SortedFacts.
Context {A : Type} (key : A -> Q).

Local Abbreviation above := (no_smaller key).

Lemma insert_desc_sorted x l :
  StronglySorted above l -> StronglySorted above (insert_desc key x l).
Proof.
  induction 1 as [|y l Hl IH Hy]; simpl.
  - repeat constructor.
  - destruct (Qltb (key x) (key y)) eqn:Hxy.
    + constructor; [exact IH|].
      apply Forall_forall. intros b Hb.
      apply (Permutation_in _ (insert_desc_perm key x l)) in Hb.
      destruct Hb as [<-|Hb].
      * apply Qlt_le_weak, Qltb_lt, Hxy.
      * rewrite Forall_forall in Hy. apply Hy, Hb.
    + apply Qltb_ge in Hxy. constructor; [constructor; assumption|].
      constructor; [exact Hxy|].
      apply Forall_forall. intros b Hb. rewrite Forall_forall in Hy.
      unfold above. apply Qle_trans with (key y); [apply Hy, Hb | exact Hxy].
Qed.

Lemma sort_desc_sorted l : StronglySorted above (sort_desc key l).
Proof.
  induction l as [|x l IH]; simpl; [constructor|].
  apply insert_desc_sorted, IH.
Qed.

Lemma sorted_head_above_tail l :
  StronglySorted above l ->
  forall n a b, In a (firstn n l) -> In b (skipn n l) ->
                (key b <= key a)%Q.
Proof.
  induction 1 as [|x l Hl IH Hx]; intros n a b Ha Hb.
  - destruct n; destruct Ha.
  - destruct n as [|n]; [destruct Ha|]. simpl in Ha, Hb.
    destruct Ha as [<-|Ha].
    + rewrite Forall_forall in Hx. apply Hx.
      rewrite <- (firstn_skipn n l). apply in_or_app. right. exact Hb.
    + apply (IH n); assumption.
Qed.
End SortedFacts.

Lemma firstn_or_skipn {A : Type} (n : nat) (l : list A) (x : A) :
  In x l -> In x (firstn n l) \/ In x (skipn n l).
Proof.
  intros H. rewrite <- (firstn_skipn n l) in H. apply in_app_or, H.
Qed.

(** C8, amended.  Every entry of the persisted [current_sales] has a
    positive discount and an end date that is empty or not before today.
    Every record that passes the filter and meets both conditions is in
    the list the run sorts; it is in the persisted list unless more than
    500 records qualify, in which case the persisted list holds 500 of
    them, none with a smaller discount than the record left out. *)
Theorem current_sales_content lower w opts files0
  (Hrun : raised (handle lower w opts files0) = None) :
  exists all_sales log1 r,
    fetch (server w) (count opts) (Z.min (batch_size opts) 100)
      [LogStart (count opts)] = (all_sales, log1) /\
    primary_file (files (handle lower w opts files0))
    = Some (Written (PrimaryDoc r)) /\
    (forall g, In g (Snapshot.current_sales r) -> current_on (today w) g) /\
    (forall d g,
        In (PDict d) all_sales -> ~ anomalous lower d ->
        info_of d = Some g -> current_on (today w) g ->
        In g (Snapshot.current_sales r) \/
        ((500 < current_count (Snapshot.stats r))%nat /\
         List.length (Snapshot.current_sales r) = 500%nat /\
         forall g', In g' (Snapshot.current_sales r) ->
                    (discount_rate g <= discount_rate g')%Q)).
Proof.
  destruct (handle_success _ _ _ _ Hrun)
    as [all_sales [log1 [st [Hf [Hc [_ Hp]]]]]].
  exists all_sales, log1, (make_result (now w) all_sales st).
  split; [exact Hf|]. split; [exact Hp|].
  destruct (classify_inv _ _ _ _ Hc) as [kept [Hk [Hcur _]]].
  cbn [make_result Snapshot.current_sales Snapshot.stats current_count].
  unfold sorted_current. rewrite Hcur. split.
  - intros g Hg. apply In_firstn, sort_desc_In, filter_In in Hg.
    apply is_current_on, Hg.
  - intros d g Hd Hn Hg Hon.
    assert (Hin : In g (sort_desc discount_rate
                          (filter (is_current (today w)) kept))).
    { apply sort_desc_In, filter_In. split.
      - apply (kept_of_In _ _ _ Hk). exists d. auto.
      - apply is_current_on, Hon. }
    destruct (firstn_or_skipn 500 _ _ Hin) as [H|H]; [left; exact H|].
    right.
    assert (Hlen : (500 < List.length (sort_desc discount_rate
                          (filter (is_current (today w)) kept)))%nat).
    { destruct (Nat.lt_ge_cases 500 (List.length (sort_desc discount_rate
                          (filter (is_current (today w)) kept))))
        as [Hlt|Hge]; [exact Hlt|].
      rewrite skipn_all2 in H by exact Hge. destruct H. }
    split; [exact Hlen|]. split.
    + apply firstn_length_le. lia.
    + intros g' Hg'.
      exact (sorted_head_above_tail discount_rate _
               (sort_desc_sorted discount_rate _) 500 g' g Hg' H).
Qed.

(** ** The top sales *)

(** C2, amended.  Every entry of the persisted [top_sales] has a discount
    of at least 0.5 and is one of the current sales the run collected; it
    also occurs, by [game_id], in the persisted [current_sales] whenever
    the run collected at most 500 current sales. *)
Theorem top_sales_within_current lower w opts files0
  (Hrun : raised (handle lower w opts files0) = None) :
  exists all_sales log1 st r,
    fetch (server w) (count opts) (Z.min (batch_size opts) 100)
      [LogStart (count opts)] = (all_sales, log1) /\
    classify lower (today w) all_sales = Ok st /\
    primary_file (files (handle lower w opts files0))
    = Some (Written (PrimaryDoc r)) /\
    forall g, In g (Snapshot.top_sales r) ->
      (f0_5 <= discount_rate g)%Q /\
      In g (current_sales st) /\
      ((current_count (Snapshot.stats r) <= 500)%nat ->
       exists g', In g' (Snapshot.current_sales r) /\
                  game_id g' = game_id g).
Proof.
  destruct (handle_success _ _ _ _ Hrun)
    as [all_sales [log1 [st [Hf [Hc [_ Hp]]]]]].
  exists all_sales, log1, st, (make_result (now w) all_sales st).
  split; [exact Hf|]. split; [exact Hc|]. split; [exact Hp|].
  cbn [make_result Snapshot.current_sales Snapshot.top_sales Snapshot.stats
       current_count].
  intros g Hg. unfold top_sales, popular_sales in Hg.
  apply In_firstn, In_firstn, sort_desc_In, filter_In in Hg.
  destruct Hg as [Hin Hhalf]. split; [apply Qle_bool_iff, Hhalf|].
  split; [apply (sort_desc_In discount_rate), Hin|].
  intros Hle. exists g. split; [|reflexivity].
  rewrite firstn_all2 by exact Hle. exact Hin.
Qed.

(** ** Runs over 501 current sales *)

Lemma passes_not_anomalous lower today st d st' :
  process_item lower today st (PDict d) = Ok st' ->
  skipped_scam st' = skipped_scam st ->
  ~ anomalous lower d.
Proof.
  intros H Hs. destruct (process_item_inv _ _ _ _ _ H) as [[_ ->] | [Hn _]];
    [simpl in Hs; lia | exact Hn].
Qed.

Lemma In_occurs (g : game_info) (l : list game_info) :
  key_eqb (game_id g) (game_id g) = true ->
  In g l ->
  existsb (fun g' => key_eqb (game_id g') (game_id g)) l = true.
Proof.
  intros Hr Hin. apply existsb_exists. exists g. auto.
Qed.

(** C8 as stated fails on 501 current sales: game 501 passes the filter,
    has a positive discount and no end date, and is not in the persisted
    [current_sales]. *)
Lemma current_sales_content_counterexample :
  exists all_sales log1 r d g,
    fetch (paged catalogue501) 2000 100 [LogStart 2000] = (all_sales, log1) /\
    primary_file (files (handle ascii_lower (world_of catalogue501)
                           default_options no_files))
    = Some (Written (PrimaryDoc r)) /\
    sale_record 501 (1 # 2) 99999 = PDict d /\
    In (PDict d) all_sales /\
    ~ anomalous ascii_lower d /\
    info_of d = Some g /\
    current_on "20261103" g /\
    ~ In g (Snapshot.current_sales r).
Proof.
  do 5 eexists.
  split; [vm_compute; reflexivity|].
  split; [vm_compute; reflexivity|].
  split; [reflexivity|].
  split; [apply (nth_error_In _ 500); vm_compute; reflexivity|].
  split.
  { eapply passes_not_anomalous with (today := "20261103") (st := acc_init);
      [vm_compute; reflexivity | reflexivity]. }
  split; [vm_compute; reflexivity|].
  split; [apply is_current_on; vm_compute; reflexivity|].
  intros Hin. apply In_occurs in Hin; [|vm_compute; reflexivity].
  vm_compute in Hin. discriminate.
Qed.

(** C2 as stated fails on the same run: game 501, the best seller, is in
    the persisted [top_sales], and no entry of the persisted
    [current_sales] has its [game_id]. *)
Lemma top_sales_subset_counterexample :
  exists r g,
    primary_file (files (handle ascii_lower (world_of catalogue501)
                           default_options no_files))
    = Some (Written (PrimaryDoc r)) /\
    In g (Snapshot.top_sales r) /\
    ~ exists g', In g' (Snapshot.current_sales r) /\ game_id g' = game_id g.
Proof.
  do 2 eexists.
  split; [vm_compute; reflexivity|].
  split; [left; reflexivity|].
  intros [g' [Hin Hid]].
  apply (In_occurs g') in Hin.
  - revert Hin. rewrite Hid. vm_compute. discriminate.
  - rewrite Hid. vm_compute. reflexivity.
Qed.

(** The two theorems at a run over six current sales. *)
Lemma current_sales_content_witness :
  raised (handle ascii_lower (world_of catalogue6) default_options no_files)
  = None /\
  exists all_sales log1 r,
    fetch (paged catalogue6) 2000 100 [LogStart 2000] = (all_sales, log1) /\
    primary_file (files (handle ascii_lower (world_of catalogue6)
                           default_options no_files))
    = Some (Written (PrimaryDoc r)) /\
    (forall g, In g (Snapshot.current_sales r) -> current_on "20261103" g) /\
    (forall d g,
        In (PDict d) all_sales -> ~ anomalous ascii_lower d ->
        info_of d = Some g -> current_on "20261103" g ->
        In g (Snapshot.current_sales r) \/
        ((500 < current_count (Snapshot.stats r))%nat /\
         List.length (Snapshot.current_sales r) = 500%nat /\
         forall g', In g' (Snapshot.current_sales r) ->
                    (discount_rate g <= discount_rate g')%Q)).
Proof.
  split; [vm_compute; reflexivity|].
  apply (current_sales_content ascii_lower (world_of catalogue6)
           default_options no_files).
  vm_compute. reflexivity.
Defined.

Lemma top_sales_within_current_witness :
  raised (handle ascii_lower (world_of catalogue6) default_options no_files)
  = None /\
  exists all_sales log1 st r,
    fetch (paged catalogue6) 2000 100 [LogStart 2000] = (all_sales, log1) /\
    classify ascii_lower "20261103" all_sales = Ok st /\
    primary_file (files (handle ascii_lower (world_of catalogue6)
                           default_options no_files))
    = Some (Written (PrimaryDoc r)) /\
    forall g, In g (Snapshot.top_sales r) ->
      (f0_5 <= discount_rate g)%Q /\
      In g (current_sales st) /\
      ((current_count (Snapshot.stats r) <= 500)%nat ->
       exists g', In g' (Snapshot.current_sales r) /\
                  game_id g' = game_id g).
Proof.
  split; [vm_compute; reflexivity|].
  apply (top_sales_within_current ascii_lower (world_of catalogue6)
           default_options no_files).
  vm_compute. reflexivity.
Defined.

(** ** The fetch loop *)

Section FetchFacts.

Variable server : Z -> Z -> response.
Variable target_count batch_size : Z.

Local Abbreviation outcome_at :=
  (page_outcome_at status_200 server batch_size).
Local Abbreviation upto := (pages_upto status_200 server batch_size).

Lemma iterate_truthy items l :
  truthy items = true -> iterate items = Ok l -> l <> [].
Proof.
  destruct items as [| | |s|l'|d]; simpl; try discriminate.
  - destruct s as [|c s]; [discriminate|]. intros _ [= <-]. simpl.
    destruct (starts_continuation s), (chars s) as [|[] rest];
      discriminate.
  - destruct l'; [discriminate|]. intros _ [= <-]. discriminate.
  - destruct d; [discriminate|]. intros _ [= <-]. discriminate.
Qed.

Lemma outcome_Items_nonempty ok r l : outcome_of ok r = Items l -> l <> [].
Proof.
  unfold outcome_of. destruct r as [|status_code [[| | | | |d]|]];
    try discriminate; destruct (ok status_code); try discriminate.
  destruct (truthy _) eqn:Ht; [|discriminate].
  destruct (iterate _) eqn:Hi; [|discriminate].
  intros [= <-]. exact (iterate_truthy _ _ Ht Hi).
Qed.

(** A turn on a page that stops the loop. *)
Lemma fetch_loop_stop fuel page all_sales log :
  Z.of_nat (List.length all_sales) < target_count ->
  stops (outcome_of status_200 (server page batch_size)) ->
  exists ev,
    fetch_loop server target_count batch_size (S fuel) page all_sales log
    = Some (all_sales, log ++ [ev]).
Proof.
  intros Hlt. apply Z.ltb_lt in Hlt. cbn [fetch_loop]. rewrite Hlt.
  unfold outcome_of, status_200.
  destruct (server page batch_size) as [|status_code json]; [eauto|].
  destruct (status_code =? 200); cbn [negb]; [|eauto].
  destruct json as [[| | | | |d]|]; cbn [dict_receiver]; eauto.
  destruct (truthy _); cbn [negb]; [|eauto].
  destruct (iterate _); [intros []|eauto].
Qed.

(** A turn on a page with items. *)
Lemma fetch_loop_go fuel page all_sales log l :
  Z.of_nat (List.length all_sales) < target_count ->
  outcome_of status_200 (server page batch_size) = Items l ->
  exists log',
    fetch_loop server target_count batch_size (S fuel) page all_sales log
    = fetch_loop server target_count batch_size fuel (page + 1)
        (all_sales ++ l) log'.
Proof.
  intros Hlt. apply Z.ltb_lt in Hlt. cbn [fetch_loop]. rewrite Hlt.
  unfold outcome_of, status_200.
  destruct (server page batch_size) as [|status_code json]; [discriminate|].
  destruct (status_code =? 200); cbn [negb]; [|discriminate].
  destruct json as [[| | | | |d]|]; cbn [dict_receiver]; try discriminate.
  destruct (truthy _); cbn [negb]; [|discriminate].
  destruct (iterate _); [|discriminate].
  intros [= <-]. eauto.
Qed.

Lemma fetch_loop_done fuel page all_sales log :
  target_count <= Z.of_nat (List.length all_sales) ->
  fetch_loop server target_count batch_size fuel page all_sales log
  = Some (all_sales, log).
Proof.
  intros Hge. apply Z.ltb_ge in Hge.
  destruct fuel; cbn [fetch_loop]; rewrite Hge; reflexivity.
Qed.

Lemma upto_S n : upto (S n) = upto n ++ items_at status_200 server batch_size (S n).
Proof.
  unfold pages_upto. rewrite seq_S, flat_map_app. simpl.
  rewrite app_nil_r. reflexivity.
Qed.

(** From any point the loop has reached, with fuel for the items still
    wanted, it ends with a result that meets [fetched]. *)
Lemma fetch_loop_fetched fuel : forall k log,
  (Z.to_nat target_count - List.length (upto k) <= fuel)%nat ->
  (forall j, (j < k)%nat ->
             Z.of_nat (List.length (upto j)) < target_count /\
             ~ stops (outcome_at (S j))) ->
  exists result log',
    fetch_loop server target_count batch_size fuel (Z.of_nat (S k))
      (upto k) log = Some (result, log') /\
    fetched status_200 server target_count batch_size result.
Proof.
  induction fuel as [|fuel IH]; intros k log Hfuel Hpast.
  - exists (upto k), log. split.
    + apply fetch_loop_done. lia.
    + exists k. repeat split; try apply Hpast; auto. left. lia.
  - destruct (Z.lt_ge_cases (Z.of_nat (List.length (upto k))) target_count)
      as [Hlt|Hge].
    2: { exists (upto k), log. split; [apply fetch_loop_done; exact Hge|].
         exists k. repeat split; try apply Hpast; auto. }
    destruct (outcome_at (S k)) as [l| |] eqn:Ho.
    + destruct (fetch_loop_go fuel (Z.of_nat (S k)) (upto k) log l Hlt Ho)
        as [log1 ->].
      assert (Hl : l <> []) by exact (outcome_Items_nonempty _ _ _ Ho).
      assert (Hup : upto (S k) = upto k ++ l).
      { rewrite upto_S. unfold items_at. rewrite Ho. reflexivity. }
      replace (Z.of_nat (S k) + 1) with (Z.of_nat (S (S k))) by lia.
      rewrite <- Hup. apply IH.
      * rewrite Hup, length_app. destruct l; [congruence|]. simpl. lia.
      * intros j Hj. destruct (Nat.eq_dec j k) as [->|Hne].
        -- split; [exact Hlt|]. rewrite Ho. auto.
        -- apply Hpast. lia.
    + destruct (fetch_loop_stop fuel (Z.of_nat (S k)) (upto k) log Hlt)
        as [ev ->]; [change (stops (outcome_at (S k))); rewrite Ho; exact I|].
      exists (upto k), (log ++ [ev]). split; [reflexivity|].
      exists k. repeat split; try apply Hpast; auto.
      right. rewrite Ho. exact I.
    + destruct (fetch_loop_stop fuel (Z.of_nat (S k)) (upto k) log Hlt)
        as [ev ->]; [change (stops (outcome_at (S k))); rewrite Ho; exact I|].
      exists (upto k), (log ++ [ev]). split; [reflexivity|].
      exists k. repeat split; try apply Hpast; auto.
      right. rewrite Ho. exact I.
Qed.

(** The fuel [fetch] gives the loop is enough: the loop ends. *)
Lemma fetch_loop_fuel log :
  exists result log',
    fetch_loop server target_count batch_size (Z.to_nat target_count) 1
      [] log = Some (result, log') /\
    fetch server target_count batch_size log = (result, log') /\
    fetched status_200 server target_count batch_size result.
Proof.
  destruct (fetch_loop_fetched (Z.to_nat target_count) 0 log)
    as [result [log' [H Hf]]].
  - simpl. lia.
  - intros j Hj. lia.
  - change (Z.of_nat 1) with 1 in H. change (upto 0) with (@nil pyval) in H.
    exists result, log'. unfold fetch. rewrite H. auto.
Qed.

End FetchFacts.

(** C9, amended.  The loop asks for pages 1, 2, ... and stops exactly when
    the items so far reach the target, a page has no items, or a request
    fails, where a failed request is an exception or a status other than
    200; it ends within the fuel [fetch] gives it, and returns all the
    items of the pages before the stop, with no cut at the target.  Three
    pages of two items and an empty fourth give the six items, and the
    output shows no error. *)
Theorem fetch_pages_until_stop server target_count batch_size log :
  fetch_loop server target_count batch_size (Z.to_nat target_count) 1 [] log
  = Some (fetch server target_count batch_size log) /\
  fetched status_200 server target_count batch_size
    (fst (fetch server target_count batch_size log)) /\
  fetch (paged catalogue6) 2000 2 [LogStart 2000]
  = (catalogue6, [LogStart 2000; LogNoMoreData]) /\
  List.length catalogue6 = 6%nat.
Proof.
  destruct (fetch_loop_fuel server target_count batch_size log)
    as [result [log' [Hloop [Hfetch Hspec]]]].
  rewrite Hfetch. repeat split; try assumption; vm_compute; reflexivity.
Qed.

(** C9 as stated fails on an endpoint that answers with status 201: the
    code stops at page 1 with nothing fetched, although the target is not
    reached, the page has items, and the request neither raised nor got a
    status outside 2xx. *)
Lemma fetch_pages_until_stop_counterexample :
  fetch server_201 2000 100 [LogStart 2000]
  = ([], [LogStart 2000; LogPageFailed 1 201]) /\
  ~ fetched status_2xx server_201 2000 100
      (fst (fetch server_201 2000 100 [LogStart 2000])).
Proof.
  split; [vm_compute; reflexivity|].
  intros [n [Hres [_ Hstop]]].
  assert (E : fst (fetch server_201 2000 100 [LogStart 2000]) = [])
    by (vm_compute; reflexivity).
  rewrite E in Hres, Hstop. destruct n as [|n].
  - destruct Hstop as [Hle|Hst]; [simpl in Hle; lia | exact Hst].
  - unfold pages_upto in Hres. cbn in Hres. discriminate.
Qed.

(** ** The two writes *)

Lemma fetch_loop_log server target_count batch_size fuel :
  forall page all_sales log result log',
    fetch_loop server target_count batch_size fuel page all_sales log
    = Some (result, log') ->
    forall ev, In ev log' -> In ev log \/ fetch_event ev.
Proof.
  assert (Hlast : forall (log : list log_event) e,
             fetch_event e ->
             forall ev, In ev (log ++ [e]) -> In ev log \/ fetch_event ev).
  { intros log e He ev Hin. apply in_app_or in Hin.
    destruct Hin as [Hin|[<-|[]]]; auto. }
  induction fuel as [|fuel IH]; intros page all_sales log result log';
    cbn [fetch_loop]; destruct (_ <? target_count);
    try (intros [= <- <-]; auto); try discriminate.
  destruct (server page batch_size) as [|status_code json].
  { intros [= <- <-]. apply Hlast. exact I. }
  destruct (negb _).
  { intros [= <- <-]. apply Hlast. exact I. }
  destruct json as [data|]; [|intros [= <- <-]; apply Hlast; exact I].
  destruct (dict_receiver data) as [d|];
    [|intros [= <- <-]; apply Hlast; exact I].
  destruct (negb _); [intros [= <- <-]; apply Hlast; exact I|].
  destruct (iterate _) as [l|]; [|intros [= <- <-]; apply Hlast; exact I].
  intros H ev Hin. destruct (IH _ _ _ _ _ H ev Hin) as [Hev|Hev]; [|auto].
  destruct (page mod 5 =? 0); [|auto].
  eapply Hlast; [|exact Hev]. exact I.
Qed.

Lemma fetch_log server target_count batch_size log ev :
  In ev (snd (fetch server target_count batch_size log)) ->
  In ev log \/ fetch_event ev.
Proof.
  unfold fetch.
  destruct (fetch_loop _ _ _ _ _ _ _) as [[result log']|] eqn:H; simpl; auto.
  apply (fetch_loop_log _ _ _ _ _ _ _ _ _ H).
Qed.

(** C1, amended.  When the primary write fails, the run ends in
    [CommandError] there and then: the legacy write is not attempted, the
    legacy file is as it was, and the output says nothing about it. *)
Theorem primary_failure_ends_run lower w opts files0 st
  (Hst : classify lower (today w)
           (fst (fetch (server w) (count opts) (Z.min (batch_size opts) 100)
                   [LogStart (count opts)])) = Ok st)
  (Hio : primary_io w <> IoOk) :
  raised (handle lower w opts files0) = Some CommandError /\
  legacy_file (files (handle lower w opts files0)) = legacy_file files0 /\
  ~ legacy_attempted (handle lower w opts files0).
Proof.
  unfold legacy_attempted, handle.
  pose proof (fetch_log (server w) (count opts) (Z.min (batch_size opts) 100)
                [LogStart (count opts)]) as Hlog.
  destruct (fetch _ _ _ _) as [all_sales log1]. cbn [fst snd] in *.
  rewrite Hst.
  assert (Hquiet : forall ev, In ev (log1 ++ [LogFiltered (skipped_scam st)]) ->
                              ev <> LogLegacyUpdated /\ ev <> LogLegacyFailed).
  { intros ev Hin. apply in_app_or in Hin. destruct Hin as [Hin|[<-|[]]].
    - destruct (Hlog ev Hin) as [[<-|[]]|Hev]; [split; discriminate|].
      split; intros ->; exact Hev.
    - split; discriminate. }
  destruct (primary_io w); [congruence| |]; cbn [write_file raised files log
    legacy_file]; (split; [reflexivity|]; split; [reflexivity|]);
    intros [H|H]; apply Hquiet in H; destruct H; congruence.
Qed.

Lemma primary_failure_ends_run_witness :
  primary_io (failing_world OpenFails) <> IoOk /\
  raised (handle ascii_lower (failing_world OpenFails) default_options
            old_files) = Some CommandError /\
  legacy_file (files (handle ascii_lower (failing_world OpenFails)
                        default_options old_files))
  = legacy_file old_files /\
  ~ legacy_attempted (handle ascii_lower (failing_world OpenFails)
                        default_options old_files).
Proof.
  split; [discriminate|].
  eapply (primary_failure_ends_run ascii_lower (failing_world OpenFails)
            default_options old_files).
  - vm_compute. reflexivity.
  - discriminate.
Defined.

(** C1 as stated fails when [open] refuses the primary file: the run
    fails, and the legacy write, which would have succeeded, is never
    tried. *)
Lemma primary_failure_counterexample :
  raised (handle ascii_lower (failing_world OpenFails) default_options
            old_files) = Some CommandError /\
  legacy_io (failing_world OpenFails) = IoOk /\
  legacy_file (files (handle ascii_lower (failing_world OpenFails)
                        default_options old_files))
  = Some (Previous "list of the day before") /\
  ~ legacy_attempted (handle ascii_lower (failing_world OpenFails)
                        default_options old_files).
Proof.
  split; [vm_compute; reflexivity|].
  split; [reflexivity|].
  split; [vm_compute; reflexivity|].
  intros [H|H]; vm_compute in H; intuition discriminate.
Qed.

(** C6, amended.  The primary file is written in place: when a write
    fails after [open] has emptied the file, the run ends in
    [CommandError] and the file holds the part of the new document written
    so far, nothing of what it held before. *)
Theorem primary_write_in_place lower w opts files0 st n
  (Hst : classify lower (today w)
           (fst (fetch (server w) (count opts) (Z.min (batch_size opts) 100)
                   [LogStart (count opts)])) = Ok st)
  (Hio : primary_io w = WriteFails n) :
  raised (handle lower w opts files0) = Some CommandError /\
  primary_file (files (handle lower w opts files0))
  = Some (Cut (PrimaryDoc
                 (make_result (now w)
                    (fst (fetch (server w) (count opts)
                            (Z.min (batch_size opts) 100)
                            [LogStart (count opts)])) st)) n) /\
  forall text,
    primary_file (files (handle lower w opts files0)) <> Some (Previous text).
Proof.
  unfold handle. destruct (fetch _ _ _ _) as [all_sales log1].
  cbn [fst] in *. rewrite Hst, Hio. cbn [write_file raised files primary_file].
  repeat split. discriminate.
Qed.

Lemma primary_write_in_place_witness :
  primary_io (failing_world (WriteFails 10)) = WriteFails 10 /\
  raised (handle ascii_lower (failing_world (WriteFails 10)) default_options
            old_files) = Some CommandError.
Proof.
  split; [reflexivity|].
  eapply (primary_write_in_place ascii_lower (failing_world (WriteFails 10))
            default_options old_files).
  - vm_compute. reflexivity.
  - reflexivity.
Defined.

(** C6 as stated fails when the tenth character is the last one written:
    the snapshot of the day before is gone. *)
Lemma primary_write_counterexample :
  primary_io (failing_world (WriteFails 10)) = WriteFails 10 /\
  primary_file old_files = Some (Previous "snapshot of the day before") /\
  primary_file (files (handle ascii_lower (failing_world (WriteFails 10))
                         default_options old_files))
  <> primary_file old_files.
Proof.
  split; [reflexivity|]. split; [reflexivity|].
  vm_compute. discriminate.
Qed.

(** ** Null entries *)

Lemma classify_from_app lower today l1 : forall st l2,
  classify_from lower today st (l1 ++ l2)
  = (st' <- classify_from lower today st l1 ;;
     classify_from lower today st' l2).
Proof.
  induction l1 as [|item l1 IH]; intros st l2; simpl; [reflexivity|].
  destruct (process_item lower today st item); cbn [bind]; [apply IH|].
  reflexivity.
Qed.

Lemma null_sale_count_raises lower today st d :
  get_sale_count d = PNone -> ~ rule1 d -> ~ rule2 d -> ~ rule3 d ->
  process_item lower today st (PDict d) = Raise TypeError.
Proof.
  intros Hnull N1 N2 N3.
  unfold process_item, num_operand. cbn [dict_receiver bind].
  destruct (as_num (get_discount_rt d)) as [q|] eqn:Hq; cbn [bind];
    [|reflexivity].
  destruct (Qltb f1_0 q) eqn:H1.
  { exfalso. apply N1. exists q. split; [exact Hq | apply Qltb_lt, H1]. }
  destruct (as_num (get_full_price d)) as [f|] eqn:Hf; cbn [bind];
    [|reflexivity].
  destruct (Qltb 500000 f) eqn:H2.
  { exfalso. apply N2. exists f. split; [exact Hf | apply Qltb_lt, H2]. }
  assert (H3 : (if Qle_bool f0_9 q
                then price <- match as_num (get_sale_price d) with
                              | Some q0 => Ok q0
                              | None => Raise TypeError
                              end ;; Ok (Qltb 30000 price)
                else Ok false) = Ok false \/
               (if Qle_bool f0_9 q
                then price <- match as_num (get_sale_price d) with
                              | Some q0 => Ok q0
                              | None => Raise TypeError
                              end ;; Ok (Qltb 30000 price)
                else Ok false) = Raise TypeError).
  { destruct (Qle_bool f0_9 q) eqn:H9; [|auto].
    destruct (as_num (get_sale_price d)) as [p|] eqn:Hp; cbn [bind]; [|auto].
    destruct (Qltb 30000 p) eqn:H3; [|auto].
    exfalso. apply N3. split; [exists q | exists p]; split; auto;
      [apply Qle_bool_iff, H9 | apply Qltb_lt, H3]. }
  destruct H3 as [-> | ->]; cbn [bind]; [|reflexivity].
  rewrite Hnull. reflexivity.
Qed.

Lemma process_item_exn lower today st item e :
  process_item lower today st item = Raise e ->
  e = TypeError \/ e = AttributeError.
Proof.
  unfold process_item, num_operand, str_receiver, str_operand, dict_receiver.
  destruct item; cbn [bind]; try (intros [= <-]; auto).
  repeat (cbn [bind];
          match goal with
          | |- context [if ?c then _ else _] => destruct c
          | |- context [match as_num ?v with _ => _ end] =>
              destruct (as_num v)
          | |- context [match bp_lookup ?b ?k with _ => _ end] =>
              destruct (bp_lookup b k)
          | |- context [match get_end_dt ?v with _ => _ end] =>
              destruct (get_end_dt v)
          | |- context [match get_title ?v with _ => _ end] =>
              destruct (get_title v)
          end);
    cbn [bind]; try discriminate; intros [= <-]; auto.
Qed.

Lemma null_title_raises lower today st d :
  get_title d = PNone ->
  ~ rule1 d -> ~ rule2 d -> ~ rule3 d -> ~ rule4 d ->
  exists e, process_item lower today st (PDict d) = Raise e /\
            (e = TypeError \/ e = AttributeError).
Proof.
  intros Hnull N1 N2 N3 N4.
  destruct (process_item lower today st (PDict d)) as [st'|e] eqn:H.
  - exfalso.
    destruct (process_item_inv _ _ _ _ _ H)
      as [[[R|[R|[R|[R|R]]]] _] | [_ [g [_ [[_ [[t Ht] _]] _]]]]];
      try tauto; [|congruence].
    destruct R as [_ [t [kw [Ht _]]]]. congruence.
  - exists e. split; [reflexivity|]. exact (process_item_exn _ _ _ _ _ H).
Qed.

(** C10, amended.  A record with an explicit null in [sale_cn] that none
    of rules 1 to 3 rejects, or with an explicit null in [title_nm] that
    none of rules 1 to 4 rejects, makes its turn of the loop raise, and
    the exception ends the whole run: no file is written. *)
Theorem null_field_aborts_run lower w opts files0 before d after st1
  (Hfetch : fst (fetch (server w) (count opts) (Z.min (batch_size opts) 100)
                   [LogStart (count opts)]) = before ++ PDict d :: after)
  (Hbefore : classify lower (today w) before = Ok st1)
  (Hnull : (get_sale_count d = PNone /\
            ~ rule1 d /\ ~ rule2 d /\ ~ rule3 d) \/
           (get_title d = PNone /\
            ~ rule1 d /\ ~ rule2 d /\ ~ rule3 d /\ ~ rule4 d)) :
  exists e,
    process_item lower (today w) st1 (PDict d) = Raise e /\
    aborted_by e files0 (handle lower w opts files0).
Proof.
  assert (He : exists e, process_item lower (today w) st1 (PDict d) = Raise e
                         /\ (e = TypeError \/ e = AttributeError)).
  { destruct Hnull as [[Hn [N1 [N2 N3]]] | [Hn [N1 [N2 [N3 N4]]]]].
    - exists TypeError. split; [|auto]. apply null_sale_count_raises; auto.
    - apply null_title_raises; auto. }
  destruct He as [e [He Hkind]]. exists e. split; [exact He|].
  unfold aborted_by, handle. destruct (fetch _ _ _ _) as [all_sales log1].
  cbn [fst] in Hfetch. subst all_sales.
  unfold classify in *. rewrite classify_from_app, Hbefore. cbn [bind].
  cbn [classify_from]. rewrite He. cbn [bind raised files]. auto.
Qed.

Lemma null_field_aborts_run_witness :
  exists e,
    process_item ascii_lower "20261103" acc_init (PDict null_count_fields)
    = Raise e /\
    aborted_by e old_files
      (handle ascii_lower (world_of [PDict null_count_fields])
         default_options old_files).
Proof.
  apply (null_field_aborts_run ascii_lower (world_of [PDict null_count_fields])
           default_options old_files [] null_count_fields [] acc_init).
  - vm_compute. reflexivity.
  - reflexivity.
  - left. split; [reflexivity|].
    assert (Hq : as_num (get_discount_rt null_count_fields) = Some (1 # 2))
      by reflexivity.
    assert (Hf : as_num (get_full_price null_count_fields) = Some 5000%Q)
      by reflexivity.
    repeat split.
    + intros [q [E H]]. rewrite Hq in E. injection E as <-.
      apply Qltb_lt in H. vm_compute in H. discriminate.
    + intros [f [E H]]. rewrite Hf in E. injection E as <-.
      apply Qltb_lt in H. vm_compute in H. discriminate.
    + intros [[q [E H]] _]. rewrite Hq in E. injection E as <-.
      apply Qle_bool_iff in H. vm_compute in H. discriminate.
Defined.

(** C10 as stated fails on a record that rule 1 rejects before either
    null entry is looked at: no exception, one more scam counted. *)
Lemma null_field_counterexample :
  get_sale_count null_scam_fields = PNone /\
  get_title null_scam_fields = PNone /\
  process_item ascii_lower "20261103" acc_init (PDict null_scam_fields)
  = Ok (skip acc_init).
Proof.
  repeat split; vm_compute; reflexivity.
Qed.

(** ** Dictionary keys *)

Lemma key_eqb_sym a b : key_eqb a b = key_eqb b a.
Proof.
  destruct a, b; simpl; try reflexivity;
    try apply Qeq_bool_comm; apply String.eqb_sym.
Qed.

Lemma key_eqb_trans a b c :
  key_eqb a b = true -> key_eqb b c = true -> key_eqb a c = true.
Proof.
  destruct a, b; simpl; try discriminate; destruct c; simpl;
    try discriminate; try apply Qeq_bool_trans; auto.
  rewrite !String.eqb_eq. congruence.
Qed.

Lemma key_eqb_refl a : hashable a = true -> key_eqb a a = true.
Proof.
  destruct a; simpl; try discriminate; intros _;
    try apply Qeq_bool_refl; auto. apply String.eqb_refl.
Qed.

(** Equal keys give the same answer against any third key. *)
Lemma key_eqb_congr a b x : key_eqb a b = true -> key_eqb a x = key_eqb b x.
Proof.
  intros H. destruct (key_eqb b x) eqn:Hb.
  - exact (key_eqb_trans _ _ _ H Hb).
  - destruct (key_eqb a x) eqn:Ha; [|reflexivity].
    rewrite key_eqb_sym in H. rewrite <- Hb. symmetry.
    exact (key_eqb_trans _ _ _ H Ha).
Qed.

Lemma key_eqb_truthy a b : key_eqb a b = true -> truthy a = truthy b.
Proof.
  assert (Hz : forall x y, Qeq_bool x y = true ->
                           Qeq_bool x 0 = Qeq_bool y 0).
  { intros x y H. apply Qeq_bool_iff in H. rewrite H. reflexivity. }
  destruct a as [|[|]|x|s| |], b as [|[|]|y|t| |]; simpl;
    try discriminate; try reflexivity; intros H.
  - apply Hz in H. simpl in H. rewrite <- H. reflexivity.
  - apply Hz in H. simpl in H. rewrite <- H. reflexivity.
  - apply Hz in H. simpl in H. rewrite H. reflexivity.
  - apply Hz in H. simpl in H. rewrite H. reflexivity.
  - rewrite (Hz _ _ H). reflexivity.
  - apply String.eqb_eq in H. subst. reflexivity.
Qed.

(** ** The [best_prices] dictionary as a map *)

Lemma bp_lookup_set bp k g k' :
  key_eqb k k = true ->
  bp_lookup (bp_set bp k g) k'
  = if key_eqb k k' then Some g else bp_lookup bp k'.
Proof.
  intros Hk. induction bp as [|[k0 g0] bp IH]; simpl.
  - reflexivity.
  - destruct (key_eqb k0 k) eqn:H0; simpl.
    + rewrite (key_eqb_congr _ _ k' H0). destruct (key_eqb k k'); reflexivity.
    + destruct (key_eqb k0 k') eqn:H1; [|exact IH].
      destruct (key_eqb k k') eqn:H2; [|reflexivity].
      rewrite key_eqb_sym in H2.
      rewrite (key_eqb_trans _ _ _ H1 H2) in H0. discriminate.
Qed.

Lemma bp_set_keys bp k g :
  map fst (bp_set bp k g)
  = match bp_lookup bp k with
    | Some _ => map fst bp
    | None => map fst bp ++ [k]
    end.
Proof.
  induction bp as [|[k0 g0] bp IH]; simpl; [reflexivity|].
  destruct (key_eqb k0 k); simpl; [reflexivity|].
  rewrite IH. destruct (bp_lookup bp k); reflexivity.
Qed.

Lemma bp_lookup_None bp k :
  bp_lookup bp k = None -> Forall (fun k' => key_eqb k' k = false) (map fst bp).
Proof.
  induction bp as [|[k0 g0] bp IH]; simpl; [constructor|].
  destruct (key_eqb k0 k) eqn:H0; [discriminate|]. auto.
Qed.

Lemma bp_lookup_In bp k g :
  bp_lookup bp k = Some g -> exists k', In (k', g) bp /\ key_eqb k' k = true.
Proof.
  induction bp as [|[k0 g0] bp IH]; simpl; [discriminate|].
  destruct (key_eqb k0 k) eqn:H0.
  - intros [= <-]. eauto.
  - intros H. destruct (IH H) as [k' [Hin Hk]]. eauto.
Qed.

(** With pairwise different keys, each item is the one a lookup of its key
    finds. *)
Lemma bp_In_lookup bp k g :
  ForallOrdPairs (fun a b => key_eqb a b = false) (map fst bp) ->
  Forall (fun k' => key_eqb k' k' = true) (map fst bp) ->
  In (k, g) bp -> bp_lookup bp k = Some g.
Proof.
  induction bp as [|[k0 g0] bp IH]; simpl; [intros _ _ []|].
  intros Hd Hr Hin. inversion Hd as [|? ? Hk0 Hd']; subst.
  inversion Hr as [|? ? Hr0 Hr']; subst.
  destruct Hin as [[= -> ->]|Hin].
  - rewrite Hr0. reflexivity.
  - rewrite Forall_forall in Hk0.
    rewrite (Hk0 k (in_map fst _ _ Hin)). apply IH; assumption.
Qed.

Lemma bp_lookup_congr bp k k' :
  key_eqb k k' = true -> bp_lookup bp k = bp_lookup bp k'.
Proof.
  intros H. induction bp as [|[k0 g0] bp IH]; simpl; [reflexivity|].
  rewrite (key_eqb_sym k0 k), (key_eqb_sym k0 k'), (key_eqb_congr _ _ k0 H).
  rewrite IH. reflexivity.
Qed.

Lemma FOP_snoc {A : Type} (R : A -> A -> Prop) (l : list A) (x : A) :
  ForallOrdPairs R l -> Forall (fun y => R y x) l ->
  ForallOrdPairs R (l ++ [x]).
Proof.
  induction 1 as [|a l Ha Hl IH]; intros Hx; simpl.
  - repeat constructor.
  - inversion Hx; subst. constructor; [|auto].
    apply Forall_app. split; [exact Ha | repeat constructor; assumption].
Qed.

Lemma tracked_price_Some g p :
  tracked_price g = Some p <->
  truthy (game_id g) = true /\ truthy (current_price g) = true /\
  as_num (current_price g) = Some p /\ (0 < p)%Q.
Proof.
  unfold tracked_price. rewrite <- Qltb_lt.
  destruct (truthy (game_id g)), (truthy (current_price g)); simpl;
    try (split; [discriminate | intros [? [? _]]; discriminate]).
  destruct (as_num (current_price g)) as [q|];
    [|split; [discriminate | intros [_ [_ [? _]]]; discriminate]].
  destruct (Qltb 0 q) eqn:Hq; split.
  - intros [= <-]. auto.
  - intros [_ [_ [[= <-] _]]]. reflexivity.
  - discriminate.
  - intros [_ [_ [[= <-] H]]]. congruence.
Qed.

(** ** The invariant of the best prices *)

Lemma best_inv_init : best_inv [] [].
Proof.
  split; simpl; try constructor; try discriminate. intros g' [].
Qed.

Lemma best_inv_step bp ks g :
  best_inv bp ks ->
  (tracked_price g <> None -> hashable (game_id g) = true) ->
  best_inv (update_best bp g) (ks ++ [g]).
Proof.
  intros [Hd Hr He Hf] Hh. unfold update_best.
  destruct (tracked_price g) as [p|] eqn:Ht.
  2: { split; auto.
       - intros k g1 Hl. destruct (He k g1 Hl) as [Hid [q [Hq [[g0 [Hg0 E]] Hm]]]].
         split; [exact Hid|]. exists q. split; [exact Hq|]. split.
         + exists g0. split; [apply in_or_app; auto | exact E].
         + intros g' p' Hin. apply in_app_or in Hin.
           destruct Hin as [Hin|[<-|[]]]; [eauto | congruence].
       - intros g' Hin. apply in_app_or in Hin.
         destruct Hin as [Hin|[<-|[]]]; [auto | congruence]. }
  assert (Hk : key_eqb (game_id g) (game_id g) = true).
  { apply key_eqb_refl, Hh. discriminate. }
  assert (Hnew : forall bp', (forall k', bp_lookup bp' k'
                    = if key_eqb (game_id g) k' then Some (mark_best g)
                      else bp_lookup bp k') ->
                 (forall g' p', In g' ks -> tracked_price g' = Some p' ->
                      key_eqb (game_id g') (game_id g) = true -> (p <= p')%Q) ->
                 (forall k g1, bp_lookup bp' k = Some g1 ->
                    key_eqb (game_id g1) k = true /\
                    exists q, tracked_price g1 = Some q /\
                      (exists g0, In g0 (ks ++ [g]) /\ g1 = mark_best g0) /\
                      (forall g' p', In g' (ks ++ [g]) ->
                         tracked_price g' = Some p' ->
                         key_eqb (game_id g') k = true -> (q <= p')%Q)) /\
                 (forall g', In g' (ks ++ [g]) -> tracked_price g' <> None ->
                    bp_lookup bp' (game_id g') <> None)).
  { intros bp' Hl' Hmin. split.
    - intros k g1. rewrite Hl'. destruct (key_eqb (game_id g) k) eqn:Hgk.
      + intros [= <-]. split; [exact Hgk|]. exists p. split; [exact Ht|]. split.
        * exists g. split; [apply in_or_app; simpl; auto | reflexivity].
        * intros g' p' Hin Hp' Hk'. apply in_app_or in Hin.
          destruct Hin as [Hin|[<-|[]]].
          -- apply (Hmin g' p' Hin Hp'). rewrite key_eqb_sym in Hgk.
             exact (key_eqb_trans _ _ _ Hk' Hgk).
          -- rewrite Ht in Hp'. injection Hp' as <-. apply Qle_refl.
      + intros Hl. destruct (He k g1 Hl) as [Hid [q [Hq [[g0 [Hg0 E]] Hm]]]].
        split; [exact Hid|]. exists q. split; [exact Hq|]. split.
        * exists g0. split; [apply in_or_app; auto | exact E].
        * intros g' p' Hin. apply in_app_or in Hin.
          destruct Hin as [Hin|[<-|[]]]; [eauto | congruence].
    - intros g' Hin Hg'. rewrite Hl'.
      destruct (key_eqb (game_id g) (game_id g')) eqn:Hgg; [discriminate|].
      apply in_app_or in Hin. destruct Hin as [Hin|[<-|[]]]; [auto|congruence]. }
  destruct (bp_lookup bp (game_id g)) as [best|] eqn:Hl.
  - destruct (He _ _ Hl) as [Hid [s [Hs [Hg0 Hm]]]].
    assert (Hnum : as_num (current_price best) = Some s)
      by (apply tracked_price_Some in Hs; tauto).
    rewrite Hnum. destruct (Qltb p s) eqn:Hps.
    + destruct (Hnew (bp_set bp (game_id g) (mark_best g))) as [He' Hf'].
      * intros k'. apply bp_lookup_set, Hk.
      * intros g' p' Hin Hp' Hk'. apply Qlt_le_weak.
        apply Qlt_le_trans with s; [apply Qltb_lt, Hps | eauto].
      * split; auto; rewrite bp_set_keys, Hl; assumption.
    + split; auto.
      * intros k g1 Hl1.
        destruct (He k g1 Hl1) as [Hid1 [q [Hq [[g0 [Hg0' E]] Hm1]]]].
        split; [exact Hid1|]. exists q. split; [exact Hq|]. split.
        -- exists g0. split; [apply in_or_app; auto | exact E].
        -- intros g' p' Hin Hp' Hk'. apply in_app_or in Hin.
           destruct Hin as [Hin|[<-|[]]]; [eauto|].
           rewrite Ht in Hp'. injection Hp' as <-.
           rewrite (bp_lookup_congr bp _ _ Hk'), Hl1 in Hl.
           injection Hl as ->. rewrite Hs in Hq. injection Hq as <-.
           apply Qltb_ge, Hps.
      * intros g' Hin Hg'. apply in_app_or in Hin.
        destruct Hin as [Hin|[<-|[]]]; [auto|]. rewrite Hl. discriminate.
  - destruct (Hnew (bp_set bp (game_id g) (mark_best g))) as [He' Hf'].
    + intros k'. apply bp_lookup_set, Hk.
    + intros g' p' Hin Hp' Hk'. exfalso.
      apply (Hf g' Hin); [congruence|].
      rewrite (bp_lookup_congr bp _ _ Hk'). exact Hl.
    + split; auto; rewrite bp_set_keys, Hl.
      * apply FOP_snoc; [exact Hd | apply bp_lookup_None, Hl].
      * apply Forall_app. split; [exact Hr | repeat constructor; exact Hk].
Qed.

Lemma best_inv_fold kept : forall bp ks,
  best_inv bp ks ->
  Forall (fun g => tracked_price g <> None -> hashable (game_id g) = true)
    kept ->
  best_inv (fold_left update_best kept bp) (ks ++ kept).
Proof.
  induction kept as [|g kept IH]; intros bp ks Hinv Hh; simpl.
  - rewrite app_nil_r. exact Hinv.
  - inversion Hh; subst.
    replace (ks ++ g :: kept) with ((ks ++ [g]) ++ kept)
      by (rewrite <- app_assoc; reflexivity).
    apply IH; [apply best_inv_step|]; assumption.
Qed.

Lemma kept_of_hashable lower items kept :
  kept_of lower items kept ->
  Forall (fun g => tracked_price g <> None -> hashable (game_id g) = true)
    kept.
Proof.
  induction 1 as [| |d g items kept Hn Hg [_ [_ Hh]] Hk IH]; auto.
Qed.

(** ** One entry per game *)

Section Pairwise.
Context {A : Type} (R : A -> A -> Prop) (key : A -> Q).
Hypothesis R_sym : forall a b, R a b -> R b a.

Lemma FOP_insert x l :
  Forall (R x) l -> ForallOrdPairs R l ->
  ForallOrdPairs R (insert_desc key x l).
Proof.
  induction l as [|y l IH]; intros Hx Hl; simpl.
  - repeat constructor.
  - destruct (Qltb (key x) (key y)); [|constructor; assumption].
    inversion Hx; inversion Hl; subst. constructor; [|auto].
    apply Forall_forall. intros b Hb.
    apply (Permutation_in _ (insert_desc_perm key x l)) in Hb.
    destruct Hb as [<-|Hb]; [auto|].
    match goal with H : Forall (R y) l |- _ =>
      rewrite Forall_forall in H; auto end.
Qed.

Lemma FOP_sort l : ForallOrdPairs R l -> ForallOrdPairs R (sort_desc key l).
Proof.
  induction 1 as [|x l Hx Hl IH]; simpl; [constructor|].
  apply FOP_insert; [|exact IH].
  apply Forall_forall. intros b Hb. apply sort_desc_In in Hb.
  rewrite Forall_forall in Hx. auto.
Qed.

Lemma FOP_firstn n : forall l,
  ForallOrdPairs R l -> ForallOrdPairs R (firstn n l).
Proof.
  induction n as [|n IH]; intros l Hl; [constructor|].
  destruct Hl as [|x l Hx Hl]; simpl; constructor; [|auto].
  apply Forall_forall. intros b Hb. rewrite Forall_forall in Hx.
  apply Hx, (In_firstn n), Hb.
Qed.
End Pairwise.

Lemma distinct_ids_of_keys bp :
  ForallOrdPairs (fun a b => key_eqb a b = false) (map fst bp) ->
  (forall k g, In (k, g) bp -> key_eqb (game_id g) k = true) ->
  distinct_ids (map snd bp).
Proof.
  unfold distinct_ids. induction bp as [|[k0 g0] bp IH]; simpl; intros Hd Hid.
  - constructor.
  - inversion Hd as [|? ? Hk0 Hd']; subst. constructor; [|auto].
    apply Forall_forall. intros g Hg. apply in_map_iff in Hg.
    destruct Hg as [[k g'] [E Hin]]. simpl in E. subst g'.
    rewrite (key_eqb_congr _ _ _ (Hid k0 g0 (or_introl eq_refl))).
    rewrite key_eqb_sym, (key_eqb_congr _ _ _ (Hid k g (or_intror Hin))).
    rewrite key_eqb_sym. rewrite Forall_forall in Hk0.
    apply Hk0, (in_map fst _ _ Hin).
Qed.

Lemma distinct_ids_single l gid :
  distinct_ids l ->
  (List.length (filter (fun e => key_eqb (game_id e) gid) l) <= 1)%nat.
Proof.
  induction 1 as [|x l Hx Hl IH]; simpl; [lia|].
  destruct (key_eqb (game_id x) gid) eqn:Hxg; [|exact IH].
  assert (E : filter (fun e => key_eqb (game_id e) gid) l = []).
  { clear IH Hl. induction l as [|y l IHl]; simpl; [reflexivity|].
    inversion Hx as [|? ? Hxy Hx']; subst.
    destruct (key_eqb (game_id y) gid) eqn:Hyg; [|auto].
    rewrite key_eqb_sym in Hyg.
    rewrite (key_eqb_trans _ _ _ Hxg Hyg) in Hxy. discriminate. }
  rewrite E. simpl. lia.
Qed.

Lemma best_inv_In bp ks k g :
  best_inv bp ks -> In (k, g) bp -> bp_lookup bp k = Some g.
Proof.
  intros [Hd Hr _ _]. apply bp_In_lookup; assumption.
Qed.

(** ** The best prices *)

Lemma occurrence_tracked kept gid p g :
  In g kept -> key_eqb (game_id g) gid = true ->
  as_num (current_price g) = Some p -> (0 < p)%Q ->
  truthy gid = true ->
  tracked_price g = Some p.
Proof.
  intros _ Hid Hnum Hpos Hgid. apply tracked_price_Some.
  rewrite (key_eqb_truthy _ _ Hid). repeat split; auto.
  apply (positive_truthy _ p Hnum). apply Qltb_lt, Hpos.
Qed.

(** C4, amended.  In the persisted [best_prices] no [game_id] has more
    than one entry, and the [current_price] of an entry stored for a
    [game_id] is the least [current_price] among the records of the
    filtered input with that [game_id] and a positive [current_price].
    Such an entry is there for every [game_id] that Python takes for true
    and that has such a record, unless the run tracked more than 200
    games, in which case the list holds 200 entries.  Two records of game
    "100", at 1000 and at 800, leave one entry, at 800. *)
Theorem best_price_unique_and_least lower w opts files0
  (Hrun : raised (handle lower w opts files0) = None) :
  exists all_sales log1 kept r,
    fetch (server w) (count opts) (Z.min (batch_size opts) 100)
      [LogStart (count opts)] = (all_sales, log1) /\
    kept_of lower all_sales kept /\
    primary_file (files (handle lower w opts files0))
    = Some (Written (PrimaryDoc r)) /\
    (forall gid,
        (List.length (filter (fun e => key_eqb (game_id e) gid)
                        (Snapshot.best_prices r)) <= 1)%nat /\
        (forall e, In e (Snapshot.best_prices r) ->
                   key_eqb (game_id e) gid = true ->
                   exists p, as_num (current_price e) = Some p /\
                             min_price kept gid p) /\
        (forall p, occurrence kept gid p -> truthy gid = true ->
                   (exists e, In e (Snapshot.best_prices r) /\
                              key_eqb (game_id e) gid = true) \/
                   ((200 < best_prices_count (Snapshot.stats r))%nat /\
                    List.length (Snapshot.best_prices r) = 200%nat))) /\
    option_map
      (fun r' => map (fun e => (game_id e, current_price e))
                   (Snapshot.best_prices r'))
      (snapshot_of (handle ascii_lower (world_of catalogue_c)
                      default_options no_files))
    = Some [(PStr "100", PNum 800)].
Proof.
  destruct (handle_success _ _ _ _ Hrun)
    as [all_sales [log1 [st [Hf [Hc [_ Hp]]]]]].
  destruct (classify_inv _ _ _ _ Hc) as [kept [Hk [_ [Hbp _]]]].
  exists all_sales, log1, kept, (make_result (now w) all_sales st).
  split; [exact Hf|]. split; [exact Hk|]. split; [exact Hp|].
  split; [|vm_compute; reflexivity].
  assert (Hinv : best_inv (best_prices st) kept).
  { rewrite Hbp. apply (best_inv_fold kept [] []);
      [apply best_inv_init | apply (kept_of_hashable _ _ _ Hk)]. }
  cbn [make_result Snapshot.best_prices Snapshot.stats best_prices_count].
  unfold best_prices_list.
  assert (Hentry : forall e, In e (map snd (best_prices st)) ->
                     exists k, bp_lookup (best_prices st) k = Some e).
  { intros e He. apply in_map_iff in He. destruct He as [[k e'] [E Hin]].
    simpl in E. subst e'. exists k. exact (best_inv_In _ _ _ _ Hinv Hin). }
  intros gid. split; [|split].
  - apply distinct_ids_single. unfold distinct_ids.
    assert (Hsym : forall a b : game_info,
               key_eqb (game_id a) (game_id b) = false ->
               key_eqb (game_id b) (game_id a) = false)
      by (intros a b H; rewrite key_eqb_sym; exact H).
    apply FOP_firstn, FOP_sort; [exact Hsym|].
    apply distinct_ids_of_keys; [apply (inv_distinct _ _ Hinv)|].
    intros k g Hin.
    apply (inv_entry _ _ Hinv), (best_inv_In _ _ _ _ Hinv Hin).
  - intros e He Heg. apply In_firstn, sort_desc_In, Hentry in He.
    destruct He as [k Hl].
    destruct (inv_entry _ _ Hinv k e Hl) as [Hid [p [Hp' [[g0 [Hg0 E]] Hm]]]].
    pose proof (proj1 (tracked_price_Some _ _) Hp') as [Htid [_ [Hnum Hpos]]].
    exists p. split; [exact Hnum|]. split.
    + exists g0. subst e. auto.
    + intros p' [g' [Hin' [Hid' [Hnum' Hpos']]]].
      apply (Hm g' p' Hin').
      * apply (occurrence_tracked kept gid); auto.
        rewrite <- (key_eqb_truthy _ _ Heg). exact Htid.
      * apply key_eqb_trans with gid; [exact Hid'|].
        apply key_eqb_trans with (game_id e); [|exact Hid].
        rewrite key_eqb_sym. exact Heg.
  - intros p [g [Hin [Hid [Hnum Hpos]]]] Hgid.
    destruct (Nat.le_gt_cases
                (List.length (sort_desc discount_rate
                                (map snd (best_prices st)))) 200)
      as [Hlen|Hlen];
      [left | right; split; [exact Hlen | apply firstn_length_le; lia]].
    pose proof (occurrence_tracked kept gid p g Hin Hid Hnum Hpos Hgid) as Ht.
    destruct (bp_lookup (best_prices st) (game_id g)) as [e|] eqn:Hl.
    2: { exfalso. apply (inv_found _ _ Hinv g Hin); congruence. }
    exists e. split.
    + rewrite firstn_all2 by exact Hlen. apply sort_desc_In.
      destruct (bp_lookup_In _ _ _ Hl) as [k' [Hin' _]].
      apply (in_map snd _ _ Hin').
    + apply key_eqb_trans with (game_id g); [|exact Hid].
      apply (inv_entry _ _ Hinv _ _ Hl).
Qed.

Lemma best_price_unique_and_least_witness :
  raised (handle ascii_lower (world_of catalogue_c) default_options no_files)
  = None /\
  exists all_sales log1 kept r,
    fetch (paged catalogue_c) 2000 100 [LogStart 2000] = (all_sales, log1) /\
    kept_of ascii_lower all_sales kept /\
    primary_file (files (handle ascii_lower (world_of catalogue_c)
                           default_options no_files))
    = Some (Written (PrimaryDoc r)) /\
    forall gid,
      (List.length (filter (fun e => key_eqb (game_id e) gid)
                      (Snapshot.best_prices r)) <= 1)%nat /\
      (forall e, In e (Snapshot.best_prices r) ->
                 key_eqb (game_id e) gid = true ->
                 exists p, as_num (current_price e) = Some p /\
                           min_price kept gid p) /\
      (forall p, occurrence kept gid p -> truthy gid = true ->
                 (exists e, In e (Snapshot.best_prices r) /\
                            key_eqb (game_id e) gid = true) \/
                 ((200 < best_prices_count (Snapshot.stats r))%nat /\
                  List.length (Snapshot.best_prices r) = 200%nat)).
Proof.
  split; [vm_compute; reflexivity|].
  destruct (best_price_unique_and_least ascii_lower (world_of catalogue_c)
              default_options no_files)
    as [all_sales [log1 [kept [r [Hf [Hk [Hp [H _]]]]]]]].
  - vm_compute. reflexivity.
  - exists all_sales, log1, kept, r. auto.
Defined.

(** C4 as stated fails on 201 games: game 201 is in the filtered input
    with a [game_id] that Python takes for true and a price of 1000, the
    run tracks 201 games, and the persisted [best_prices] holds no entry
    for game 201. *)
Lemma best_price_entry_counterexample :
  exists all_sales log1 r d g,
    fetch (paged catalogue201) 2000 100 [LogStart 2000] = (all_sales, log1) /\
    primary_file (files (handle ascii_lower (world_of catalogue201)
                           default_options no_files))
    = Some (Written (PrimaryDoc r)) /\
    sale_record 201 (1 # 2) 10 = PDict d /\
    In (PDict d) all_sales /\
    ~ anomalous ascii_lower d /\
    info_of d = Some g /\
    game_id g = PNum 201 /\
    tracked_price g = Some 1000%Q /\
    (forall kept, kept_of ascii_lower all_sales kept ->
                  occurrence kept (PNum 201) 1000) /\
    best_prices_count (Snapshot.stats r) = 201%nat /\
    ~ exists e, In e (Snapshot.best_prices r) /\
                key_eqb (game_id e) (PNum 201) = true.
Proof.
  assert (Hn : ~ anomalous ascii_lower
                 [("game_id", PNum 201); ("title_nm", PStr "Game");
                  ("discount_rt", PNum (1 # 2)); ("sale_price_va", PNum 1000);
                  ("full_price_va", PNum 5000); ("sale_cn", PNum 10);
                  ("end_dt", PStr "")]).
  { eapply passes_not_anomalous with (today := "20261103") (st := acc_init);
      [vm_compute; reflexivity | reflexivity]. }
  do 5 eexists.
  split; [vm_compute; reflexivity|].
  split; [vm_compute; reflexivity|].
  split; [reflexivity|].
  split; [apply (nth_error_In _ 200); vm_compute; reflexivity|].
  split; [exact Hn|].
  split; [vm_compute; reflexivity|].
  split; [reflexivity|].
  split; [vm_compute; reflexivity|].
  split.
  { intros kept Hk. eexists. split.
    - apply (kept_of_In _ _ _ Hk). eexists. split; [|split; [exact Hn|]].
      + apply (nth_error_In _ 200). vm_compute. reflexivity.
      + vm_compute. reflexivity.
    - split; [reflexivity|]. split; [reflexivity|]. reflexivity. }
  split; [vm_compute; reflexivity|].
  intros [e [Hin Hid]].
  assert (H : existsb (fun e' => key_eqb (game_id e') (PNum 201))
                (firstn 200
                   (best_prices_list
                      (match classify ascii_lower "20261103" catalogue201 with
                       | Ok st => st
                       | Raise _ => acc_init
                       end))) = true).
  { apply existsb_exists. exists e. split; [|exact Hid].
    revert Hin. vm_compute. exact (fun H => H). }
  vm_compute in H. discriminate.
Qed.

(** ** Records without [game_id] or title *)

Lemma dict_get_absent d key default :
  has_key d key = false -> dict_get d key default = default.
Proof.
  induction d as [|[k v] d IH]; simpl; [reflexivity|].
  destruct (String.eqb k key); simpl; [discriminate | exact IH].
Qed.

Lemma numeric_Some v : numeric v = true -> exists q, as_num v = Some q.
Proof.
  unfold numeric. destruct (as_num v); [eauto | discriminate].
Qed.

(** On a record with well-typed entries the turn does not raise. *)
Lemma process_item_total lower today st d :
  typed d = true -> stored_numeric st ->
  exists st', process_item lower today st (PDict d) = Ok st'.
Proof.
  unfold typed, stored_numeric. rewrite !andb_true_iff.
  intros [[[[[[Hq Hf] Hp] Hc] Ht] He] Hh] Hst.
  destruct (numeric_Some _ Hq) as [q Eq]. destruct (numeric_Some _ Hf) as [f Ef].
  destruct (numeric_Some _ Hp) as [p Ep]. destruct (numeric_Some _ Hc) as [c Ec].
  destruct (get_title d) as [| | |t| |] eqn:Et; try discriminate.
  destruct (get_end_dt d) as [| | |e| |] eqn:Ee; try discriminate.
  unfold process_item, num_operand. cbn [dict_receiver bind].
  rewrite Eq, Ef, Ep, Ec, Et, Ee, Hh. cbn [bind str_receiver str_operand].
  destruct (Qltb f1_0 q); [eauto|].
  destruct (Qltb 500000 f); [eauto|].
  destruct (Qle_bool f0_9 q); cbn [bind];
    [destruct (Qltb 30000 p); [eauto|] |];
    (destruct (Qltb c 3 && _); [eauto|]);
    (destruct (_ && existsb _ _); [eauto|]);
    (destruct (truthy (get_game_id d) && truthy (get_sale_price d));
     [|eauto]);
    (destruct (Qltb 0 p); [|eauto]);
    match goal with
    | |- context [bp_lookup ?b ?k] =>
        destruct (bp_lookup b k) as [best|] eqn:Hl; [|eauto];
        assert (Hb : exists s, as_num (current_price best) = Some s)
    end;
    try (apply numeric_Some;
         match type of Hl with
         | bp_lookup ?b _ = _ =>
             assert (Hb' : Forall (fun kv => numeric (current_price (snd kv))
                                             = true) b)
         end;
         [repeat match goal with
                 | |- context [if ?x then _ else _] => destruct x
                 end; exact Hst |];
         destruct (bp_lookup_In _ _ _ Hl) as [k' [Hin _]];
         rewrite Forall_forall in Hb'; exact (Hb' _ Hin));
    destruct Hb as [s ->]; cbn [bind]; destruct (Qltb p s); eauto.
Qed.

(** C5, amended.  Nothing rejects a record without [game_id] or
    [title_nm] ahead of the filter, and nothing counts it apart: with its
    other entries well typed, its turn does not raise, and it is rejected
    and counted as a scam exactly when one of the five rules holds;
    otherwise it is kept, with [None] for what is missing, and enters
    [current_sales] when the sale is on.  Without [game_id] it leaves
    [best_prices] as it was. *)
Theorem shapeless_record_is_filtered lower today st d
  (Hmissing : has_key d "game_id" = false \/ has_key d "title_nm" = false)
  (Htyped : typed d = true)
  (Hstored : stored_numeric st) :
  exists st',
    process_item lower today st (PDict d) = Ok st' /\
    ((anomalous lower d /\ st' = skip st) \/
     (~ anomalous lower d /\
      exists g, info_of d = Some g /\ st' = keep today st g /\
        (current_on today g -> In g (current_sales st')) /\
        (has_key d "game_id" = false ->
         game_id g = PNone /\ best_prices st' = best_prices st) /\
        (has_key d "title_nm" = false -> title g = PNone))).
Proof.
  destruct (process_item_total lower today st d Htyped Hstored) as [st' H].
  exists st'. split; [exact H|].
  destruct (process_item_inv _ _ _ _ _ H) as [Ha | [Hn [g [Hg [_ ->]]]]];
    [left; exact Ha | right].
  split; [exact Hn|]. exists g. split; [exact Hg|]. split; [reflexivity|].
  unfold info_of in Hg.
  destruct (as_num (get_discount_rt d)), (as_num (get_full_price d)),
    (as_num (get_sale_count d)); try discriminate.
  injection Hg as <-. cbn [keep current_sales best_prices].
  split; [|split].
  - intros Hon. apply is_current_on in Hon. rewrite Hon.
    apply in_or_app. right. left. reflexivity.
  - intros Hid. split.
    + cbn [game_id]. apply dict_get_absent, Hid.
    + unfold update_best, tracked_price. cbn [game_id]. unfold get_game_id.
      rewrite (dict_get_absent _ _ _ Hid). reflexivity.
  - intros Htitle. cbn [title]. apply dict_get_absent, Htitle.
Qed.

Lemma shapeless_record_is_filtered_witness :
  exists st',
    process_item ascii_lower "20261103" acc_init
      (PDict (anonymous_fields (1 # 2))) = Ok st' /\
    ((anomalous ascii_lower (anonymous_fields (1 # 2)) /\
      st' = skip acc_init) \/
     (~ anomalous ascii_lower (anonymous_fields (1 # 2)) /\
      exists g, info_of (anonymous_fields (1 # 2)) = Some g /\
        st' = keep "20261103" acc_init g /\
        (current_on "20261103" g -> In g (current_sales st')) /\
        (has_key (anonymous_fields (1 # 2)) "game_id" = false ->
         game_id g = PNone /\ best_prices st' = best_prices acc_init) /\
        (has_key (anonymous_fields (1 # 2)) "title_nm" = false ->
         title g = PNone))).
Proof.
  apply (shapeless_record_is_filtered ascii_lower "20261103" acc_init
           (anonymous_fields (1 # 2))).
  - left. reflexivity.
  - reflexivity.
  - constructor.
Defined.

(** C5 as stated fails on two records without [game_id] and [title_nm]:
    the sale at 50% is in the persisted [current_sales] and [top_sales],
    and the fake at 320% is counted as a scam. *)
Lemma shapeless_record_counterexample :
  has_key (anonymous_fields (1 # 2)) "game_id" = false /\
  has_key (anonymous_fields (1 # 2)) "title_nm" = false /\
  has_key (anonymous_fields (16 # 5)) "game_id" = false /\
  has_key (anonymous_fields (16 # 5)) "title_nm" = false /\
  exists r g,
    primary_file (files (handle ascii_lower (world_of anonymous_catalogue)
                           default_options no_files))
    = Some (Written (PrimaryDoc r)) /\
    info_of (anonymous_fields (1 # 2)) = Some g /\
    In g (Snapshot.current_sales r) /\
    In g (Snapshot.top_sales r) /\
    In (LogFiltered 1)
       (log (handle ascii_lower (world_of anonymous_catalogue)
               default_options no_files)) /\
    tally (process_item ascii_lower "20261103" acc_init
             (PDict (anonymous_fields (16 # 5)))) = Some 1%nat.
Proof.
  repeat (split; [reflexivity|]).
  do 2 eexists.
  split; [vm_compute; reflexivity|].
  split; [vm_compute; reflexivity|].
  split; [left; reflexivity|].
  split; [left; reflexivity|].
  split; [vm_compute; auto 6 | vm_compute; reflexivity].
Qed.

(** ** The filter *)

Lemma keep_not_skip today st g : keep today st g <> skip st.
Proof.
  intros E. apply (f_equal skipped_scam) in E. simpl in E. lia.
Qed.

(** C3, amended.  A record whose turn of the loop raises no exception is
    rejected, which is to say the turn does nothing but add one to the
    scam counter, if and only if one of the five rules holds of it; and
    the turn raises nothing when the entries it reads have the types its
    operations need (the prices already in [best_prices] being numbers).
    On a record that meets no other rule, a discount of exactly 1.0 and a
    full price of exactly 500000 pass, while 1.0001 and 500001 are
    rejected. *)
Theorem filter_rejects_iff_rule lower today st d :
  (forall st', process_item lower today st (PDict d) = Ok st' ->
     (anomalous lower d <-> st' = skip st) /\
     (anomalous lower d <-> skipped_scam st' = S (skipped_scam st))) /\
  (typed d = true -> stored_numeric st ->
     exists st', process_item lower today st (PDict d) = Ok st') /\
  tally (process_item ascii_lower "20261103" acc_init
           (plain_record f1_0 20000)) = Some 0%nat /\
  tally (process_item ascii_lower "20261103" acc_init
           (plain_record (10001 # 10000) 20000)) = Some 1%nat /\
  tally (process_item ascii_lower "20261103" acc_init
           (plain_record f0_5 500000)) = Some 0%nat /\
  tally (process_item ascii_lower "20261103" acc_init
           (plain_record f0_5 500001)) = Some 1%nat.
Proof.
  split; [|split; [exact (process_item_total lower today st d)|]].
  - intros st' Hrun.
    destruct (process_item_inv _ _ _ _ _ Hrun)
      as [[Ha ->] | [Hn [g [_ [_ ->]]]]].
    + split; split; auto.
    + split; split; intros E; try tauto.
      * exfalso. exact (keep_not_skip _ _ _ E).
      * simpl in E. lia.
  - repeat split; vm_compute; reflexivity.
Qed.

(** The theorem at the record of scenario B, a discount of 320%. *)
Lemma filter_rejects_iff_rule_witness :
  typed (plain_fields (16 # 5) 20000) = true /\
  process_item ascii_lower "20261103" acc_init (plain_record (16 # 5) 20000)
  = Ok (skip acc_init) /\
  (anomalous ascii_lower (plain_fields (16 # 5) 20000)
   <-> skip acc_init = skip acc_init) /\
  (anomalous ascii_lower (plain_fields (16 # 5) 20000)
   <-> skipped_scam (skip acc_init) = S (skipped_scam acc_init)).
Proof.
  split; [reflexivity|]. split; [vm_compute; reflexivity|].
  apply (proj1 (filter_rejects_iff_rule ascii_lower "20261103" acc_init
                  (plain_fields (16 # 5) 20000))).
  vm_compute. reflexivity.
Defined.

(** C3 as stated fails on a soundtrack at 96% off whose [sale_cn] is
    null: the fifth rule holds of it, and its turn rejects and counts
    nothing, for [None < 3] raises [TypeError] at the fourth rule.  The
    run over that record ends with the exception, writes no file and
    reports no filtered count. *)
Lemma filter_rejects_counterexample :
  rule5 ascii_lower null_count_ost_fields /\
  anomalous ascii_lower null_count_ost_fields /\
  process_item ascii_lower "20261103" acc_init (PDict null_count_ost_fields)
  = Raise TypeError /\
  aborted_by TypeError old_files
    (handle ascii_lower (world_of null_count_ost_catalogue) default_options
       old_files) /\
  ~ exists n,
      In (LogFiltered n)
         (log (handle ascii_lower (world_of null_count_ost_catalogue)
                 default_options old_files)).
Proof.
  assert (H5 : rule5 ascii_lower null_count_ost_fields).
  { split.
    - exists (24 # 25). split; [reflexivity | vm_compute; discriminate].
    - exists "Game OST", "ost". split; [reflexivity|].
      split; [simpl; tauto|]. exists "game ", "". reflexivity. }
  split; [exact H5|]. split; [do 4 right; exact H5|].
  split; [vm_compute; reflexivity|]. split.
  - split; [vm_compute; reflexivity|]. split; [left; reflexivity|].
    vm_compute. reflexivity.
  - intros [n Hn]. vm_compute in Hn. intuition discriminate.
Qed.

(** * Further properties of the command *)

(** ** Successful runs, in full *)

(** What a run that raises nothing has gone through. *)
Lemma run_views lower w opts files0 :
  raised (handle lower w opts files0) = None ->
  exists all_sales log1 st kept,
    fetch (server w) (count opts) (Z.min (batch_size opts) 100)
      [LogStart (count opts)] = (all_sales, log1) /\
    classify lower (today w) all_sales = Ok st /\
    kept_of lower all_sales kept /\
    current_sales st = filter (is_current (today w)) kept /\
    best_inv (best_prices st) kept /\
    (skipped_scam st + List.length kept = List.length all_sales)%nat /\
    wrote (handle lower w opts files0) (make_result (now w) all_sales st).
Proof.
  intros Hrun.
  destruct (handle_success _ _ _ _ Hrun)
    as [all_sales [log1 [st [Hf [Hc [_ Hp]]]]]].
  destruct (classify_inv _ _ _ _ Hc) as [kept [Hk [Hcur [Hbp Hs]]]].
  exists all_sales, log1, st, kept.
  do 4 (split; [assumption|]). split; [|split; assumption].
  rewrite Hbp. apply (best_inv_fold kept [] []);
    [apply best_inv_init | apply (kept_of_hashable _ _ _ Hk)].
Qed.

Lemma In_sorted_current today st kept g :
  current_sales st = filter (is_current today) kept ->
  In g (sorted_current st) -> In g kept /\ is_current today g = true.
Proof.
  intros Hcur Hg. unfold sorted_current in Hg. rewrite Hcur in Hg.
  apply sort_desc_In, filter_In in Hg. exact Hg.
Qed.

Lemma In_top_sales st g :
  In g (top_sales st) ->
  In g (sorted_current st) /\ Qle_bool f0_5 (discount_rate g) = true.
Proof.
  intros Hg. unfold top_sales, popular_sales in Hg.
  apply In_firstn, sort_desc_In, filter_In in Hg. exact Hg.
Qed.

Lemma In_best_prices_list st kept e :
  best_inv (best_prices st) kept ->
  In e (best_prices_list st) ->
  exists g0 p, In g0 kept /\ e = mark_best g0 /\ tracked_price g0 = Some p.
Proof.
  intros Hinv He. unfold best_prices_list in He.
  apply sort_desc_In, in_map_iff in He. destruct He as [[k e'] [E Hin]].
  simpl in E. subst e'.
  pose proof (best_inv_In _ _ _ _ Hinv Hin) as Hl.
  destruct (inv_entry _ _ Hinv k e Hl) as [_ [p [Hp [[g0 [Hg0 E]] _]]]].
  exists g0, p. subst e. auto.
Qed.


(** ** What is never persisted *)

Lemma dict_get_found d key a b v :
  dict_get d key a = v -> v <> a -> dict_get d key b = v.
Proof.
  induction d as [|[k x] d IH]; simpl; [congruence|].
  destruct (String.eqb k key); auto.
Qed.

Lemma info_within_rules lower d g :
  ~ anomalous lower d -> info_of d = Some g -> within_rules lower g.
Proof.
  unfold anomalous, rule1, rule2, rule3, rule4, rule5, info_of, num_gt,
    num_ge, num_lt, within_rules.
  destruct (as_num (get_discount_rt d)) as [q|]; [|discriminate].
  destruct (as_num (get_full_price d)) as [f|]; [|discriminate].
  destruct (as_num (get_sale_count d)) as [c|]; [|discriminate].
  intros Hn [= <-].
  cbn [discount_rate original_price current_price sale_count title].
  split; [|split; [|split; [|split]]].
  - apply Qnot_lt_le. intros H. apply Hn. left. eauto.
  - apply Qnot_lt_le. intros H. apply Hn. right. left. eauto.
  - intros [H9 Hp]. apply Hn. right. right. left. split; eauto.
  - intros [Hc H95]. apply Hn. right. right. right. left. split; eauto.
  - intros t Ht [H95 [kw [Hin Hsub]]]. apply Hn. do 4 right.
    split; [eauto|]. exists t, kw. split; [|auto].
    apply (dict_get_found _ _ PNone); [exact Ht | discriminate].
Qed.

Lemma kept_within_rules lower items kept :
  kept_of lower items kept ->
  Forall (fun g => within_rules lower g /\ is_best_price g = false) kept.
Proof.
  induction 1 as [| |d g items kept Hn Hg Hs Hk IH]; auto.
  constructor; [|exact IH]. split; [exact (info_within_rules _ _ _ Hn Hg)|].
  unfold info_of in Hg.
  destruct (as_num (get_discount_rt d)), (as_num (get_full_price d)),
    (as_num (get_sale_count d)); try discriminate.
  injection Hg as <-. reflexivity.
Qed.



(** ** Order of the current sales *)

Lemma StronglySorted_firstn {A : Type} (R : A -> A -> Prop) n : forall l,
  StronglySorted R l -> StronglySorted R (firstn n l).
Proof.
  induction n as [|n IH]; intros l Hl; [constructor|].
  destruct Hl as [|x l Hl Hx]; simpl; constructor; [auto|].
  apply Forall_forall. intros b Hb. rewrite Forall_forall in Hx.
  apply Hx, (In_firstn n), Hb.
Qed.

(** X2.  The [current_sales] of a written snapshot are in descending
    order of [discount_rate]. *)
Theorem current_sales_descending lower w opts files0
  (Hrun : raised (handle lower w opts files0) = None) :
  exists r, wrote (handle lower w opts files0) r /\
    StronglySorted (no_smaller discount_rate) (Snapshot.current_sales r).
Proof.
  destruct (handle_success _ _ _ _ Hrun)
    as [all_sales [log1 [st [_ [_ [_ Hp]]]]]].
  eexists. split; [exact Hp|].
  cbn [make_result Snapshot.current_sales].
  apply StronglySorted_firstn, sort_desc_sorted.
Qed.

Lemma current_sales_descending_witness :
  raised run6 = None /\
  exists r, wrote run6 r /\
    StronglySorted (no_smaller discount_rate) (Snapshot.current_sales r).
Proof.
  split; [vm_compute; reflexivity|].
  apply (current_sales_descending ascii_lower (world_of catalogue6)
           default_options no_files).
  vm_compute. reflexivity.
Defined.

(** ** The top sales under their cap *)

Lemma Permutation_filter_same {A : Type} (f : A -> bool) (l l' : list A) :
  Permutation l l' -> Permutation (filter f l) (filter f l').
Proof.
  induction 1 as [|x l l' _ IH|x y l|l l' l'' _ IH1 _ IH2]; simpl.
  - constructor.
  - destruct (f x); [constructor|]; exact IH.
  - destruct (f x), (f y); try reflexivity. constructor.
  - exact (Permutation_trans IH1 IH2).
Qed.

Lemma popular_sales_perm st :
  Permutation (popular_sales st) (half_off (current_sales st)).
Proof.
  unfold popular_sales, half_off, sorted_current.
  eapply Permutation_trans; [apply sort_desc_perm|].
  apply Permutation_filter_same, sort_desc_perm.
Qed.

(** X3.  [top_count] is the number of current sales the run collected at
    a discount of 0.5 or more, or 50 when there are more; and when there
    are at most 50, [top_sales] holds them all, each as often as it was
    collected. *)
Theorem top_sales_under_cap lower w opts files0
  (Hrun : raised (handle lower w opts files0) = None) :
  exists all_sales log1 st r,
    fetch (server w) (count opts) (Z.min (batch_size opts) 100)
      [LogStart (count opts)] = (all_sales, log1) /\
    classify lower (today w) all_sales = Ok st /\
    wrote (handle lower w opts files0) r /\
    top_count (Snapshot.stats r)
    = Nat.min 50 (List.length (half_off (current_sales st))) /\
    ((List.length (half_off (current_sales st)) <= 50)%nat ->
     Permutation (Snapshot.top_sales r) (half_off (current_sales st))).
Proof.
  destruct (handle_success _ _ _ _ Hrun)
    as [all_sales [log1 [st [Hf [Hc [_ Hp]]]]]].
  exists all_sales, log1, st, (make_result (now w) all_sales st).
  do 3 (split; [assumption|]).
  cbn [make_result Snapshot.top_sales Snapshot.stats top_count].
  unfold top_sales.
  pose proof (Permutation_length (popular_sales_perm st)) as Hlen.
  split.
  - rewrite length_firstn, Hlen. reflexivity.
  - intros Hle. rewrite firstn_firstn. change (Nat.min 50 50) with 50%nat.
    rewrite firstn_all2 by (rewrite Hlen; exact Hle).
    apply popular_sales_perm.
Qed.

Lemma top_sales_under_cap_witness :
  raised run6 = None /\
  exists all_sales log1 st r,
    fetch (paged catalogue6) 2000 100 [LogStart 2000] = (all_sales, log1) /\
    classify ascii_lower "20261103" all_sales = Ok st /\
    wrote run6 r /\
    top_count (Snapshot.stats r)
    = Nat.min 50 (List.length (half_off (current_sales st))) /\
    ((List.length (half_off (current_sales st)) <= 50)%nat ->
     Permutation (Snapshot.top_sales r) (half_off (current_sales st))).
Proof.
  split; [vm_compute; reflexivity|].
  apply (top_sales_under_cap ascii_lower (world_of catalogue6)
           default_options no_files).
  vm_compute. reflexivity.
Defined.

(** ** Ties *)

Section Stable.
Context {A : Type} (key : A -> Q).

Lemma with_key_insert c x l :
  with_key key c (insert_desc key x l) = with_key key c (x :: l).
Proof.
  unfold with_key. induction l as [|y l IH]; [reflexivity|].
  cbn [insert_desc]. destruct (Qltb (key x) (key y)) eqn:Hxy; [|reflexivity].
  cbn [filter] in *. rewrite IH.
  destruct (Qeq_bool (key x) c) eqn:Hx; [|reflexivity].
  destruct (Qeq_bool (key y) c) eqn:Hy; [|reflexivity].
  apply Qltb_lt in Hxy. apply Qeq_bool_iff in Hx, Hy.
  rewrite Hx, Hy in Hxy. exfalso. exact (Qlt_irrefl _ Hxy).
Qed.

(** The sort is stable: entries with the same key keep their order. *)
Lemma sort_desc_stable c l :
  with_key key c (sort_desc key l) = with_key key c l.
Proof.
  induction l as [|x l IH]; [reflexivity|].
  cbn [sort_desc fold_right]. fold (sort_desc key l).
  rewrite with_key_insert. unfold with_key in *. cbn [filter].
  rewrite IH. reflexivity.
Qed.
End Stable.

(** X5.  Among equal discounts the persisted [current_sales] keeps the
    order in which the records were collected: its entries at a given
    [discount_rate] are the first ones collected at that rate, in
    collection order. *)
Theorem current_sales_ties_in_fetch_order lower w opts files0
  (Hrun : raised (handle lower w opts files0) = None) :
  exists all_sales log1 st r,
    fetch (server w) (count opts) (Z.min (batch_size opts) 100)
      [LogStart (count opts)] = (all_sales, log1) /\
    classify lower (today w) all_sales = Ok st /\
    wrote (handle lower w opts files0) r /\
    forall c, exists rest,
      with_key discount_rate c (current_sales st)
      = with_key discount_rate c (Snapshot.current_sales r) ++ rest.
Proof.
  destruct (handle_success _ _ _ _ Hrun)
    as [all_sales [log1 [st [Hf [Hc [_ Hp]]]]]].
  exists all_sales, log1, st, (make_result (now w) all_sales st).
  do 3 (split; [assumption|]). intros c.
  cbn [make_result Snapshot.current_sales]. unfold sorted_current.
  exists (with_key discount_rate c
            (skipn 500 (sort_desc discount_rate (current_sales st)))).
  rewrite <- (sort_desc_stable discount_rate c (current_sales st)) at 1.
  unfold with_key. rewrite <- filter_app, firstn_skipn. reflexivity.
Qed.

Lemma current_sales_ties_in_fetch_order_witness :
  raised run6 = None /\
  exists all_sales log1 st r,
    fetch (paged catalogue6) 2000 100 [LogStart 2000] = (all_sales, log1) /\
    classify ascii_lower "20261103" all_sales = Ok st /\
    wrote run6 r /\
    forall c, exists rest,
      with_key discount_rate c (current_sales st)
      = with_key discount_rate c (Snapshot.current_sales r) ++ rest.
Proof.
  split; [vm_compute; reflexivity|].
  apply (current_sales_ties_in_fetch_order ascii_lower (world_of catalogue6)
           default_options no_files).
  vm_compute. reflexivity.
Defined.

(** ** Flags, counts and duplicates *)

(** X6.  In a written snapshot every entry of [best_prices] carries
    [is_best_price], a [game_id] that Python takes for true and a
    positive [current_price]; no entry of [current_sales] or [top_sales]
    carries [is_best_price]. *)
Theorem best_price_flag lower w opts files0
  (Hrun : raised (handle lower w opts files0) = None) :
  exists r, wrote (handle lower w opts files0) r /\
    (forall e, In e (Snapshot.best_prices r) ->
       is_best_price e = true /\ truthy (game_id e) = true /\
       num_gt (current_price e) 0) /\
    (forall g, In g (Snapshot.current_sales r) \/ In g (Snapshot.top_sales r)
               -> is_best_price g = false).
Proof.
  destruct (run_views _ _ _ _ Hrun)
    as [all_sales [log1 [st [kept [_ [_ [Hk [Hcur [Hinv [_ Hw]]]]]]]]]].
  eexists. split; [exact Hw|].
  cbn [make_result Snapshot.current_sales Snapshot.top_sales
       Snapshot.best_prices]. split.
  - intros e He. apply In_firstn, (In_best_prices_list _ _ _ Hinv) in He.
    destruct He as [g0 [p [_ [-> Hp]]]].
    apply tracked_price_Some in Hp. destruct Hp as [Hid [_ [Hnum Hpos]]].
    split; [reflexivity|]. split; [exact Hid|]. exists p. auto.
  - pose proof (kept_within_rules _ _ _ Hk) as Hall.
    rewrite Forall_forall in Hall.
    intros g [Hg|Hg]; apply In_firstn in Hg.
    + apply (In_sorted_current _ _ _ _ Hcur) in Hg. apply Hall, Hg.
    + apply In_top_sales in Hg. destruct Hg as [Hg _].
      apply (In_sorted_current _ _ _ _ Hcur) in Hg. apply Hall, Hg.
Qed.

Lemma best_price_flag_witness :
  raised run6 = None /\
  exists r, wrote run6 r /\
    (forall e, In e (Snapshot.best_prices r) ->
       is_best_price e = true /\ truthy (game_id e) = true /\
       num_gt (current_price e) 0) /\
    (forall g, In g (Snapshot.current_sales r) \/ In g (Snapshot.top_sales r)
               -> is_best_price g = false).
Proof.
  split; [vm_compute; reflexivity|].
  apply (best_price_flag ascii_lower (world_of catalogue6) default_options
           no_files).
  vm_compute. reflexivity.
Defined.

Lemma length_bp_set bp k g :
  (List.length (bp_set bp k g) <= S (List.length bp))%nat.
Proof.
  rewrite <- (length_map fst), bp_set_keys.
  destruct (bp_lookup bp k); rewrite ?length_app, length_map; simpl; lia.
Qed.

Lemma length_update_best bp g :
  (List.length (update_best bp g) <= S (List.length bp))%nat.
Proof.
  unfold update_best.
  repeat match goal with
         | |- context [match ?x with _ => _ end] => destruct x
         end; try apply length_bp_set; lia.
Qed.

Lemma length_fold_update_best kept : forall bp,
  (List.length (fold_left update_best kept bp)
   <= List.length bp + List.length kept)%nat.
Proof.
  induction kept as [|g kept IH]; intros bp; simpl; [lia|].
  specialize (IH (update_best bp g)).
  pose proof (length_update_best bp g). lia.
Qed.

(** X7.  The counts of a written snapshot agree with its lists and with
    each other: [total_fetched] is the number of fetched records; the
    lists hold the first 500, all (at most 50) and the first 200 of what
    [current_count], [top_count] and [best_prices_count] count; and
    neither [current_count] nor [best_prices_count] exceeds
    [total_fetched], nor [top_count] [current_count]. *)
Theorem stats_consistent lower w opts files0
  (Hrun : raised (handle lower w opts files0) = None) :
  exists all_sales log1 r,
    fetch (server w) (count opts) (Z.min (batch_size opts) 100)
      [LogStart (count opts)] = (all_sales, log1) /\
    wrote (handle lower w opts files0) r /\
    total_fetched (Snapshot.stats r) = List.length all_sales /\
    List.length (Snapshot.current_sales r)
    = Nat.min 500 (current_count (Snapshot.stats r)) /\
    List.length (Snapshot.top_sales r) = top_count (Snapshot.stats r) /\
    (top_count (Snapshot.stats r) <= 50)%nat /\
    List.length (Snapshot.best_prices r)
    = Nat.min 200 (best_prices_count (Snapshot.stats r)) /\
    (top_count (Snapshot.stats r) <= current_count (Snapshot.stats r))%nat /\
    (current_count (Snapshot.stats r) <= total_fetched (Snapshot.stats r))%nat /\
    (best_prices_count (Snapshot.stats r)
     <= total_fetched (Snapshot.stats r))%nat.
Proof.
  destruct (handle_success _ _ _ _ Hrun)
    as [all_sales [log1 [st [Hf [Hc [_ Hp]]]]]].
  destruct (classify_inv _ _ _ _ Hc) as [kept [_ [Hcur [Hbp Hs]]]].
  exists all_sales, log1, (make_result (now w) all_sales st).
  do 2 (split; [assumption|]).
  cbn [make_result Snapshot.current_sales Snapshot.top_sales
       Snapshot.best_prices Snapshot.stats total_fetched current_count
       top_count best_prices_count].
  assert (Hcurlen : (List.length (sorted_current st) <= List.length kept)%nat).
  { unfold sorted_current.
    rewrite (Permutation_length (sort_desc_perm discount_rate _)), Hcur.
    apply filter_length_le. }
  assert (Htop : (List.length (top_sales st)
                  <= List.length (sorted_current st))%nat).
  { unfold top_sales, popular_sales. rewrite length_firstn.
    rewrite (Permutation_length (sort_desc_perm sale_count _)).
    pose proof (filter_length_le
                  (fun g => Qle_bool f0_5 (discount_rate g))
                  (sorted_current st)). lia. }
  assert (Hbest : (List.length (best_prices_list st) <= List.length kept)%nat).
  { unfold best_prices_list.
    rewrite (Permutation_length (sort_desc_perm discount_rate _)), length_map.
    rewrite Hbp. apply (length_fold_update_best kept []). }
  split; [reflexivity|]. split; [apply length_firstn|].
  split; [unfold top_sales; rewrite firstn_firstn; reflexivity|].
  split; [apply firstn_le_length|]. split; [apply length_firstn|].
  split; [exact Htop|]. split; lia.
Qed.

Lemma stats_consistent_witness :
  raised run6 = None /\
  exists all_sales log1 r,
    fetch (paged catalogue6) 2000 100 [LogStart 2000] = (all_sales, log1) /\
    wrote run6 r /\
    total_fetched (Snapshot.stats r) = List.length all_sales /\
    List.length (Snapshot.current_sales r)
    = Nat.min 500 (current_count (Snapshot.stats r)) /\
    List.length (Snapshot.top_sales r) = top_count (Snapshot.stats r) /\
    (top_count (Snapshot.stats r) <= 50)%nat /\
    List.length (Snapshot.best_prices r)
    = Nat.min 200 (best_prices_count (Snapshot.stats r)) /\
    (top_count (Snapshot.stats r) <= current_count (Snapshot.stats r))%nat /\
    (current_count (Snapshot.stats r) <= total_fetched (Snapshot.stats r))%nat /\
    (best_prices_count (Snapshot.stats r)
     <= total_fetched (Snapshot.stats r))%nat.
Proof.
  split; [vm_compute; reflexivity|].
  apply (stats_consistent ascii_lower (world_of catalogue6) default_options
           no_files).
  vm_compute. reflexivity.
Defined.

(** X8.  [current_sales] is not reduced to one entry per game: the list
    the run sorts holds each record of the filtered input whose sale is
    on once for each time it was fetched, so [current_count] is their
    number, and a snapshot with at most 500 of them persists them all. *)
Theorem current_sales_keeps_duplicates lower w opts files0
  (Hrun : raised (handle lower w opts files0) = None) :
  exists all_sales log1 kept r,
    fetch (server w) (count opts) (Z.min (batch_size opts) 100)
      [LogStart (count opts)] = (all_sales, log1) /\
    kept_of lower all_sales kept /\
    wrote (handle lower w opts files0) r /\
    current_count (Snapshot.stats r)
    = List.length (filter (is_current (today w)) kept) /\
    ((current_count (Snapshot.stats r) <= 500)%nat ->
     Permutation (Snapshot.current_sales r)
       (filter (is_current (today w)) kept)).
Proof.
  destruct (run_views _ _ _ _ Hrun)
    as [all_sales [log1 [st [kept [Hf [_ [Hk [Hcur [_ [_ Hw]]]]]]]]]].
  exists all_sales, log1, kept, (make_result (now w) all_sales st).
  do 3 (split; [assumption|]).
  cbn [make_result Snapshot.current_sales Snapshot.stats current_count].
  unfold sorted_current. rewrite Hcur. split.
  - apply Permutation_length, sort_desc_perm.
  - intros Hle. rewrite firstn_all2 by exact Hle. apply sort_desc_perm.
Qed.

Lemma current_sales_keeps_duplicates_witness :
  raised run6 = None /\
  exists all_sales log1 kept r,
    fetch (paged catalogue6) 2000 100 [LogStart 2000] = (all_sales, log1) /\
    kept_of ascii_lower all_sales kept /\
    wrote run6 r /\
    current_count (Snapshot.stats r)
    = List.length (filter (is_current "20261103") kept) /\
    ((current_count (Snapshot.stats r) <= 500)%nat ->
     Permutation (Snapshot.current_sales r)
       (filter (is_current "20261103") kept)).
Proof.
  split; [vm_compute; reflexivity|].
  apply (current_sales_keeps_duplicates ascii_lower (world_of catalogue6)
           default_options no_files).
  vm_compute. reflexivity.
Defined.

(** ** The end of a run *)

(** A run whose classification and primary write succeed, in full. *)
Lemma handle_ok lower w opts files0 all_sales log1 st :
  fetch (server w) (count opts) (Z.min (batch_size opts) 100)
    [LogStart (count opts)] = (all_sales, log1) ->
  classify lower (today w) all_sales = Ok st ->
  primary_io w = IoOk ->
  handle lower w opts files0
  = {| raised := None;
       files :=
         {| primary_file :=
              Some (Written (PrimaryDoc (make_result (now w) all_sales st)));
            legacy_file :=
              fst (write_file (legacy_io w)
                     (LegacyDoc (slice_to (count opts) (sorted_current st)))
                     (legacy_file files0)) |};
       log := log1 ++
              closing_lines all_sales st
                (snd (write_file (legacy_io w)
                        (LegacyDoc (slice_to (count opts) (sorted_current st)))
                        (legacy_file files0))) |}.
Proof.
  intros Hf Hc Hio. unfold handle, closing_lines. rewrite Hf, Hc, Hio.
  cbn [write_file]. destruct (write_file _ _ _) as [legacy failed'].
  cbn [fst snd]. rewrite <- !app_assoc. reflexivity.
Qed.

Lemma fetch_log_quiet server target_count batch_size ev :
  In ev (snd (fetch server target_count batch_size [LogStart target_count])) ->
  ev = LogStart target_count \/ fetch_event ev.
Proof.
  intros H. destruct (fetch_log _ _ _ _ _ H) as [[<-|[]]|Hev]; auto.
Qed.

(** X9.  The number the run reports as filtered is the number of fetched
    records that met one of the five rules: together with the records of
    the filtered input it makes up the fetched total, and it is the only
    such line of the output. *)
Theorem filtered_count_reported lower w opts files0
  (Hrun : raised (handle lower w opts files0) = None) :
  exists all_sales log1 kept,
    fetch (server w) (count opts) (Z.min (batch_size opts) 100)
      [LogStart (count opts)] = (all_sales, log1) /\
    kept_of lower all_sales kept /\
    forall n, In (LogFiltered n) (log (handle lower w opts files0)) <->
              (n + List.length kept = List.length all_sales)%nat.
Proof.
  destruct (handle_success _ _ _ _ Hrun)
    as [all_sales [log1 [st [Hf [Hc [Hio _]]]]]].
  destruct (classify_inv _ _ _ _ Hc) as [kept [Hk [_ [_ Hs]]]].
  exists all_sales, log1, kept. do 2 (split; [assumption|]).
  rewrite (handle_ok _ _ _ _ _ _ _ Hf Hc Hio). cbn [log].
  intros n. rewrite in_app_iff. unfold closing_lines. split.
  - intros [H|[[= <-]|[[=]|[H|[]]]]].
    + assert (H' : In (LogFiltered n)
                     (snd (fetch (server w) (count opts)
                             (Z.min (batch_size opts) 100)
                             [LogStart (count opts)])))
        by (rewrite Hf; exact H).
      destruct (fetch_log_quiet _ _ _ _ H') as [[=]|[]].
    + exact Hs.
    + destruct (snd _); discriminate.
  - intros Hn. right. left. f_equal. lia.
Qed.

Lemma filtered_count_reported_witness :
  raised run6 = None /\
  exists all_sales log1 kept,
    fetch (paged catalogue6) 2000 100 [LogStart 2000] = (all_sales, log1) /\
    kept_of ascii_lower all_sales kept /\
    forall n, In (LogFiltered n) (log run6) <->
              (n + List.length kept = List.length all_sales)%nat.
Proof.
  split; [vm_compute; reflexivity|].
  apply (filtered_count_reported ascii_lower (world_of catalogue6)
           default_options no_files).
  vm_compute. reflexivity.
Defined.

(** X10.  A legacy write that fails does not fail the run: after a
    primary write that succeeded the run raises nothing, the snapshot is
    in the primary file, and the output ends with the warning about the
    legacy file and never says it was updated; when it was [open] that
    failed, the legacy file is as it was. *)
Theorem legacy_failure_is_not_fatal lower w opts files0 st
  (Hst : classify lower (today w)
           (fst (fetch (server w) (count opts) (Z.min (batch_size opts) 100)
                   [LogStart (count opts)])) = Ok st)
  (Hprimary : primary_io w = IoOk)
  (Hlegacy : legacy_io w <> IoOk) :
  raised (handle lower w opts files0) = None /\
  (exists r, wrote (handle lower w opts files0) r) /\
  last (log (handle lower w opts files0)) LogError = LogLegacyFailed /\
  ~ In LogLegacyUpdated (log (handle lower w opts files0)) /\
  (legacy_io w = OpenFails ->
   legacy_file (files (handle lower w opts files0)) = legacy_file files0).
Proof.
  pose proof (fetch_log_quiet (server w) (count opts)
                (Z.min (batch_size opts) 100)) as Hquiet.
  destruct (fetch _ _ _ _) as [all_sales log1] eqn:Hf. cbn [fst snd] in *.
  rewrite (handle_ok _ _ _ _ _ _ _ Hf Hst Hprimary).
  cbn [raised files log primary_file legacy_file]. unfold wrote.
  cbn [files primary_file].
  split; [reflexivity|]. split; [eauto|].
  destruct (legacy_io w) eqn:Hio; [congruence| |]; cbn [write_file fst snd];
    unfold closing_lines.
  - split; [|split; [|reflexivity]].
    + match goal with
      | |- last (_ ++ [?a; ?b; ?c]) _ = _ =>
          change [a; b; c] with ([a; b] ++ [c])
      end.
      rewrite app_assoc. apply last_last.
    + intros H. apply in_app_or in H. destruct H as [H|H].
      * destruct (Hquiet _ H) as [[=]|[]].
      * simpl in H. intuition discriminate.
  - split; [|split; [|discriminate]].
    + match goal with
      | |- last (_ ++ [?a; ?b; ?c]) _ = _ =>
          change [a; b; c] with ([a; b] ++ [c])
      end.
      rewrite app_assoc. apply last_last.
    + intros H. apply in_app_or in H. destruct H as [H|H].
      * destruct (Hquiet _ H) as [[=]|[]].
      * simpl in H. intuition discriminate.
Qed.

Lemma legacy_failure_is_not_fatal_witness :
  legacy_io legacy_failing_world <> IoOk /\
  raised (handle ascii_lower legacy_failing_world default_options old_files)
  = None /\
  (exists r, wrote (handle ascii_lower legacy_failing_world default_options
                      old_files) r) /\
  last (log (handle ascii_lower legacy_failing_world default_options
               old_files)) LogError = LogLegacyFailed /\
  ~ In LogLegacyUpdated
      (log (handle ascii_lower legacy_failing_world default_options
              old_files)) /\
  (legacy_io legacy_failing_world = OpenFails ->
   legacy_file (files (handle ascii_lower legacy_failing_world
                         default_options old_files))
   = legacy_file old_files).
Proof.
  split; [discriminate|].
  eapply (legacy_failure_is_not_fatal ascii_lower legacy_failing_world
            default_options old_files).
  - vm_compute. reflexivity.
  - reflexivity.
  - discriminate.
Defined.

(** X11.  After a run that succeeds with both writes, the legacy file
    holds the sorted current sales cut at the requested count: for a
    count of at most 500 that is the start of the snapshot's
    [current_sales], and for a count of 500 or more the snapshot's
    [current_sales] is the start of the legacy list. *)
Theorem legacy_file_content lower w opts files0
  (Hrun : raised (handle lower w opts files0) = None)
  (Hlegacy : legacy_io w = IoOk)
  (Hcount : 0 <= count opts) :
  exists r l,
    wrote (handle lower w opts files0) r /\
    legacy_file (files (handle lower w opts files0))
    = Some (Written (LegacyDoc l)) /\
    (Z.of_nat (List.length l) <= count opts) /\
    (count opts <= 500 ->
     l = firstn (Z.to_nat (count opts)) (Snapshot.current_sales r)) /\
    (500 <= count opts -> Snapshot.current_sales r = firstn 500 l).
Proof.
  destruct (handle_success _ _ _ _ Hrun)
    as [all_sales [log1 [st [Hf [Hc [Hio _]]]]]].
  rewrite (handle_ok _ _ _ _ _ _ _ Hf Hc Hio), Hlegacy. unfold wrote.
  cbn [files primary_file legacy_file write_file fst].
  do 2 eexists. split; [reflexivity|]. split; [reflexivity|].
  cbn [make_result Snapshot.current_sales]. unfold slice_to.
  destruct (0 <=? count opts) eqn:H0; [|apply Z.leb_gt in H0; lia].
  split; [|split].
  - pose proof (firstn_le_length (Z.to_nat (count opts)) (sorted_current st)).
    lia.
  - intros Hle. rewrite firstn_firstn. f_equal. lia.
  - intros Hge. rewrite firstn_firstn. f_equal. lia.
Qed.

Lemma legacy_file_content_witness :
  raised run6 = None /\
  exists r l,
    wrote run6 r /\
    legacy_file (files run6) = Some (Written (LegacyDoc l)) /\
    (Z.of_nat (List.length l) <= 2000) /\
    (2000 <= 500 -> l = firstn (Z.to_nat 2000) (Snapshot.current_sales r)) /\
    (500 <= 2000 -> Snapshot.current_sales r = firstn 500 l).
Proof.
  split; [vm_compute; reflexivity|].
  apply (legacy_file_content ascii_lower (world_of catalogue6)
           default_options no_files).
  - vm_compute. reflexivity.
  - reflexivity.
  - vm_compute. discriminate.
Defined.

(** ** Runs that end early or fetch nothing *)

(** X12.  A fetched item that is not a JSON object, such as a character
    of a string or a key of an object sent where the list should be, ends
    the whole run with [AttributeError] when its turn comes: no file is
    written. *)
Theorem non_object_item_aborts_run lower w opts files0 before item after st1
  (Hfetch : fst (fetch (server w) (count opts) (Z.min (batch_size opts) 100)
                   [LogStart (count opts)]) = before ++ item :: after)
  (Hbefore : classify lower (today w) before = Ok st1)
  (Hitem : not_object item) :
  aborted_by AttributeError files0 (handle lower w opts files0).
Proof.
  unfold aborted_by, handle. destruct (fetch _ _ _ _) as [all_sales log1].
  cbn [fst] in Hfetch. subst all_sales.
  unfold classify in *. rewrite classify_from_app, Hbefore. cbn [bind].
  destruct item; try destruct Hitem; cbn; auto.
Qed.

Lemma non_object_item_aborts_run_witness :
  not_object (PStr "maintenance") /\
  aborted_by AttributeError old_files
    (handle ascii_lower (world_of catalogue_with_text) default_options
       old_files).
Proof.
  split; [exact I|].
  apply (non_object_item_aborts_run ascii_lower
           (world_of catalogue_with_text) default_options old_files
           [sale_record 1 (1 # 2) 10] (PStr "maintenance")
           [sale_record 2 (1 # 2) 10]
           (keep "20261103" acc_init
              {| game_id := PNum 1; title := PStr "Game";
                 current_price := PNum 1000; original_price := 5000;
                 discount_rate := 1 # 2; thumbnail := PNone;
                 store_link := PNone; end_date := PStr "";
                 sale_count := 10; is_best_price := false |})).
  - vm_compute. reflexivity.
  - vm_compute. reflexivity.
  - exact I.
Defined.

Lemma classify_nil lower today : classify lower today [] = Ok acc_init.
Proof. reflexivity. Qed.

(** A run that fetched nothing and whose writes succeed. *)
Lemma handle_nothing_fetched lower w opts files0 log1 :
  fetch (server w) (count opts) (Z.min (batch_size opts) 100)
    [LogStart (count opts)] = ([], log1) ->
  primary_io w = IoOk ->
  raised (handle lower w opts files0) = None /\
  wrote (handle lower w opts files0) (empty_snapshot (now w)) /\
  (legacy_io w = IoOk ->
   legacy_file (files (handle lower w opts files0))
   = Some (Written (LegacyDoc []))).
Proof.
  intros Hf Hio.
  rewrite (handle_ok _ _ _ _ _ _ _ Hf (classify_nil _ _) Hio). unfold wrote.
  cbn [raised files primary_file legacy_file].
  split; [reflexivity|]. split; [reflexivity|].
  intros ->. cbn [write_file fst]. unfold slice_to.
  destruct (0 <=? count opts); cbn; rewrite ?firstn_nil; reflexivity.
Qed.

(** X13.  A run asked for no items, with a count of zero or less, makes
    no request, so that nothing of the endpoint matters, and still
    writes: an empty snapshot replaces the primary file and an empty
    list the legacy file. *)
Theorem zero_count_writes_empty lower w opts files0
  (Hcount : count opts <= 0)
  (Hprimary : primary_io w = IoOk)
  (Hlegacy : legacy_io w = IoOk) :
  fetch (server w) (count opts) (Z.min (batch_size opts) 100)
    [LogStart (count opts)] = ([], [LogStart (count opts)]) /\
  raised (handle lower w opts files0) = None /\
  wrote (handle lower w opts files0) (empty_snapshot (now w)) /\
  legacy_file (files (handle lower w opts files0))
  = Some (Written (LegacyDoc [])).
Proof.
  assert (Hf : fetch (server w) (count opts) (Z.min (batch_size opts) 100)
                 [LogStart (count opts)] = ([], [LogStart (count opts)])).
  { unfold fetch. rewrite fetch_loop_done; [reflexivity | simpl; lia]. }
  split; [exact Hf|].
  destruct (handle_nothing_fetched lower w opts files0 _ Hf Hprimary)
    as [H1 [H2 H3]]. auto.
Qed.

Lemma zero_count_writes_empty_witness :
  fetch (paged catalogue6) 0 100 [LogStart 0] = ([], [LogStart 0]) /\
  raised (handle ascii_lower (world_of catalogue6)
            {| count := 0; batch_size := 100 |} old_files) = None /\
  wrote (handle ascii_lower (world_of catalogue6)
           {| count := 0; batch_size := 100 |} old_files)
    (empty_snapshot "2026-11-03T09:00:00") /\
  legacy_file (files (handle ascii_lower (world_of catalogue6)
                        {| count := 0; batch_size := 100 |} old_files))
  = Some (Written (LegacyDoc [])).
Proof.
  apply (zero_count_writes_empty ascii_lower (world_of catalogue6)
           {| count := 0; batch_size := 100 |} old_files).
  - vm_compute. discriminate.
  - reflexivity.
  - reflexivity.
Defined.

(** X14.  When the first request fails or brings no items, the run does
    not fail: it replaces the primary file with an empty snapshot and
    the legacy file with an empty list, and raises nothing. *)
Theorem failed_fetch_writes_empty lower w opts files0
  (Hcount : 0 < count opts)
  (Hfirst : stops (outcome_of status_200
                     (server w 1 (Z.min (batch_size opts) 100))))
  (Hprimary : primary_io w = IoOk)
  (Hlegacy : legacy_io w = IoOk) :
  fst (fetch (server w) (count opts) (Z.min (batch_size opts) 100)
         [LogStart (count opts)]) = [] /\
  raised (handle lower w opts files0) = None /\
  wrote (handle lower w opts files0) (empty_snapshot (now w)) /\
  legacy_file (files (handle lower w opts files0))
  = Some (Written (LegacyDoc [])).
Proof.
  assert (Hf : exists ev,
             fetch (server w) (count opts) (Z.min (batch_size opts) 100)
               [LogStart (count opts)]
             = ([], [LogStart (count opts)] ++ [ev])).
  { unfold fetch. destruct (Z.to_nat (count opts)) as [|fuel] eqn:Hn; [lia|].
    destruct (fetch_loop_stop (server w) (count opts)
                (Z.min (batch_size opts) 100) fuel 1 []
                [LogStart (count opts)]) as [ev ->]; [simpl; lia | exact Hfirst |].
    eauto. }
  destruct Hf as [ev Hf]. rewrite Hf. split; [reflexivity|].
  destruct (handle_nothing_fetched lower w opts files0 _ Hf Hprimary)
    as [H1 [H2 H3]]. auto.
Qed.

Lemma failed_fetch_writes_empty_witness :
  stops (outcome_of status_200 (server world_down 1 100)) /\
  fst (fetch server_down 2000 100 [LogStart 2000]) = [] /\
  raised (handle ascii_lower world_down default_options old_files) = None /\
  wrote (handle ascii_lower world_down default_options old_files)
    (empty_snapshot "2026-11-03T09:00:00") /\
  legacy_file (files (handle ascii_lower world_down default_options
                        old_files))
  = Some (Written (LegacyDoc [])).
Proof.
  split; [exact I|].
  apply (failed_fetch_writes_empty ascii_lower world_down default_options
           old_files).
  - reflexivity.
  - exact I.
  - reflexivity.
  - reflexivity.
Defined.

(** ** How far the fetch loop overshoots *)

Lemma paged_honours_size catalogue page size l :
  outcome_of status_200 (paged catalogue page size) = Items l ->
  (List.length l <= Z.to_nat size)%nat.
Proof.
  unfold outcome_of, paged, status_200. cbn.
  destruct (firstn _ _) as [|x l'] eqn:E; [discriminate|].
  intros [= <-]. rewrite <- E. apply firstn_le_length.
Qed.

(** X15.  The loop stops as soon as the target is reached, so what it
    returns exceeds the target by less than its last page: when no page
    brings more than [b] items, the result is empty or has fewer than
    [target_count + b] items. *)
Theorem fetch_overshoot_bounded server target_count batch_size log b
  (Hsize : forall page l,
      outcome_of status_200 (server page batch_size) = Items l ->
      (List.length l <= b)%nat) :
  fst (fetch server target_count batch_size log) = [] \/
  Z.of_nat (List.length (fst (fetch server target_count batch_size log)))
  < target_count + Z.of_nat b.
Proof.
  destruct (fetch_loop_fuel server target_count batch_size log)
    as [result [log' [_ [-> [n [-> [Hpast _]]]]]]]. cbn [fst].
  destruct n as [|n]; [left; reflexivity | right].
  destruct (Hpast n (Nat.lt_succ_diag_r n)) as [Hlt _].
  rewrite upto_S, length_app.
  assert (Hlast : (List.length (items_at status_200 server batch_size (S n))
                   <= b)%nat).
  { unfold items_at, page_outcome_at.
    destruct (outcome_of _ _) as [l| |] eqn:Ho; simpl; try lia.
    exact (Hsize _ _ Ho). }
  lia.
Qed.

Lemma fetch_overshoot_bounded_witness :
  fst (fetch (paged catalogue6) 5 2 []) = [] \/
  Z.of_nat (List.length (fst (fetch (paged catalogue6) 5 2 [])))
  < 5 + Z.of_nat (Z.to_nat 2).
Proof.
  apply (fetch_overshoot_bounded (paged catalogue6) 5 2 [] (Z.to_nat 2)).
  intros page l. apply paged_honours_size.
Defined.

(** ** Which record a best price comes from *)

Lemma first_best_extend ks k e g :
  first_best ks k e ->
  (forall p pe, tracked_price g = Some p -> key_eqb (game_id g) k = true ->
                tracked_price e = Some pe -> (pe <= p)%Q) ->
  first_best (ks ++ [g]) k e.
Proof.
  intros [before [g0 [after [p [Hks [He [Hid [Hp [Hb Ha]]]]]]]]] Hg.
  exists before, g0, (after ++ [g]), p. subst ks.
  split; [rewrite <- app_assoc; reflexivity|].
  do 4 (split; [assumption|]).
  intros g' p' Hin Hk' Hp'. apply in_app_or in Hin.
  destruct Hin as [Hin|[<-|[]]]; [eauto|].
  apply (Hg p' p Hp' Hk'). subst e. exact Hp.
Qed.

Lemma first_best_step bp ks g :
  best_inv bp ks ->
  (forall k e, bp_lookup bp k = Some e -> first_best ks k e) ->
  (tracked_price g <> None -> hashable (game_id g) = true) ->
  forall k e, bp_lookup (update_best bp g) k = Some e ->
              first_best (ks ++ [g]) k e.
Proof.
  intros Hinv Hfirst Hh k e. unfold update_best.
  destruct (tracked_price g) as [p|] eqn:Ht.
  2: { intros Hl. apply first_best_extend; [auto | congruence]. }
  assert (Hk : key_eqb (game_id g) (game_id g) = true).
  { apply key_eqb_refl, Hh. discriminate. }
  assert (Hnew : (forall g' p', In g' ks -> key_eqb (game_id g') k = true ->
                    tracked_price g' = Some p' -> (p < p')%Q) ->
                 key_eqb (game_id g) k = true ->
                 first_best (ks ++ [g]) k (mark_best g)).
  { intros Hlt Hgk. exists ks, g, [], p.
    do 4 (split; [auto|]). split; [exact Hlt | intros g' p' []]. }
  destruct (bp_lookup bp (game_id g)) as [best|] eqn:Hl.
  - destruct (inv_entry _ _ Hinv _ _ Hl) as [_ [s [Hs [_ Hm]]]].
    assert (Hnum : as_num (current_price best) = Some s)
      by (apply tracked_price_Some in Hs; tauto).
    rewrite Hnum. destruct (Qltb p s) eqn:Hps.
    + rewrite (bp_lookup_set _ _ _ _ Hk).
      destruct (key_eqb (game_id g) k) eqn:Hgk.
      * intros [= <-]. apply Hnew; [|reflexivity].
        intros g' p' Hin Hk' Hp'.
        apply Qlt_le_trans with s; [apply Qltb_lt, Hps|].
        apply (Hm g' p' Hin Hp'). rewrite key_eqb_sym in Hgk.
        exact (key_eqb_trans _ _ _ Hk' Hgk).
      * intros Hl'. apply first_best_extend; [auto | congruence].
    + intros Hl'. apply first_best_extend; [auto|].
      intros p0 pe Hp0 Hgk Hpe. rewrite Ht in Hp0. injection Hp0 as <-.
      rewrite (bp_lookup_congr bp _ _ Hgk), Hl' in Hl. injection Hl as ->.
      rewrite Hs in Hpe. injection Hpe as <-. apply Qltb_ge, Hps.
  - rewrite (bp_lookup_set _ _ _ _ Hk).
    destruct (key_eqb (game_id g) k) eqn:Hgk.
    + intros [= <-]. apply Hnew; [|reflexivity].
      intros g' p' Hin Hk' Hp'. exfalso.
      apply (inv_found _ _ Hinv g' Hin); [congruence|].
      rewrite key_eqb_sym in Hgk.
      rewrite (bp_lookup_congr bp _ _ (key_eqb_trans _ _ _ Hk' Hgk)).
      exact Hl.
    + intros Hl'. apply first_best_extend; [auto | congruence].
Qed.

Lemma first_best_fold kept : forall bp ks,
  best_inv bp ks ->
  (forall k e, bp_lookup bp k = Some e -> first_best ks k e) ->
  Forall (fun g => tracked_price g <> None -> hashable (game_id g) = true)
    kept ->
  forall k e, bp_lookup (fold_left update_best kept bp) k = Some e ->
              first_best (ks ++ kept) k e.
Proof.
  induction kept as [|g kept IH]; intros bp ks Hinv Hfirst Hh k e; simpl.
  - rewrite app_nil_r. apply Hfirst.
  - inversion Hh; subst.
    replace (ks ++ g :: kept) with ((ks ++ [g]) ++ kept)
      by (rewrite <- app_assoc; reflexivity).
    apply IH; [apply best_inv_step | apply first_best_step |]; assumption.
Qed.

Lemma first_best_congr ks k k' e :
  key_eqb k k' = true -> first_best ks k e -> first_best ks k' e.
Proof.
  intros Hkk [before [g0 [after [p [Hks [He [Hid [Hp [Hb Ha]]]]]]]]].
  assert (Hto : forall x, key_eqb x k' = true -> key_eqb x k = true).
  { intros x Hx. rewrite key_eqb_sym in Hkk.
    exact (key_eqb_trans _ _ _ Hx Hkk). }
  exists before, g0, after, p. do 2 (split; [assumption|]).
  split; [exact (key_eqb_trans _ _ _ Hid Hkk)|]. split; [assumption|].
  split; intros g' p' Hin Hk'; [apply Hb | apply Ha]; auto.
Qed.

(** X16.  A stored best price is replaced only by a strictly lower one,
    so every entry of the persisted [best_prices] is the copy of the
    first record of the filtered input that offered its game at the
    least price: the earlier records of that game cost more, the later
    ones no less. *)
Theorem best_price_is_first_lowest lower w opts files0
  (Hrun : raised (handle lower w opts files0) = None) :
  exists all_sales log1 kept r,
    fetch (server w) (count opts) (Z.min (batch_size opts) 100)
      [LogStart (count opts)] = (all_sales, log1) /\
    kept_of lower all_sales kept /\
    wrote (handle lower w opts files0) r /\
    forall e, In e (Snapshot.best_prices r) -> first_best kept (game_id e) e.
Proof.
  destruct (handle_success _ _ _ _ Hrun)
    as [all_sales [log1 [st [Hf [Hc [_ Hp]]]]]].
  destruct (classify_inv _ _ _ _ Hc) as [kept [Hk [_ [Hbp _]]]].
  exists all_sales, log1, kept, (make_result (now w) all_sales st).
  do 3 (split; [assumption|]). intros e He.
  cbn [make_result Snapshot.best_prices] in He. unfold best_prices_list in He.
  apply In_firstn, sort_desc_In, in_map_iff in He.
  destruct He as [[k e'] [E Hin]]. simpl in E. subst e'.
  pose proof (kept_of_hashable _ _ _ Hk) as Hh.
  assert (Hinv : best_inv (best_prices st) kept).
  { rewrite Hbp. apply (best_inv_fold kept [] []);
      [apply best_inv_init | exact Hh]. }
  pose proof (best_inv_In _ _ _ _ Hinv Hin) as Hl.
  destruct (inv_entry _ _ Hinv k e Hl) as [Hid _].
  apply (first_best_congr kept k); [rewrite key_eqb_sym; exact Hid|].
  rewrite Hbp in Hl.
  apply (first_best_fold kept [] [] best_inv_init); [discriminate | exact Hh|].
  exact Hl.
Qed.

Lemma best_price_is_first_lowest_witness :
  raised (handle ascii_lower (world_of catalogue_c) default_options no_files)
  = None /\
  exists all_sales log1 kept r,
    fetch (paged catalogue_c) 2000 100 [LogStart 2000] = (all_sales, log1) /\
    kept_of ascii_lower all_sales kept /\
    wrote (handle ascii_lower (world_of catalogue_c) default_options
             no_files) r /\
    forall e, In e (Snapshot.best_prices r) -> first_best kept (game_id e) e.
Proof.
  split; [vm_compute; reflexivity|].
  apply (best_price_is_first_lowest ascii_lower (world_of catalogue_c)
           default_options no_files).
  vm_compute. reflexivity.
Defined.

(** * The crawler script *)

Lemma leading_objects_all ds more :
  leading_objects (map PDict ds ++ more) = ds ++ leading_objects more.
Proof.
  induction ds as [|d ds IH]; simpl; [reflexivity|]. rewrite IH. reflexivity.
Qed.

(** The inner loop stores the leading objects of a page; it raises when
    the page has anything else. *)
Lemma collect_leading items : forall collected_data,
  exists raised,
    Crawler.collect collected_data items
    = (collected_data ++ map Crawler.info (leading_objects items), raised) /\
    (raised = false -> items = map PDict (leading_objects items)) /\
    (raised = true ->
     forall more, leading_objects (items ++ more) = leading_objects items).
Proof.
  induction items as [|item items IH]; intros c.
  - exists false. simpl. rewrite app_nil_r. repeat split. discriminate.
  - destruct item as [| | | | |d];
      try (exists true; simpl; rewrite app_nil_r; repeat split; discriminate).
    destruct (IH (c ++ [Crawler.info d])) as [raised [E [Hf Ht]]].
    exists raised. simpl. rewrite E, <- app_assoc. repeat split.
    + intros H. f_equal. auto.
    + intros H more. f_equal. auto.
Qed.

Lemma fetch_loop_extends server target_count batch_size fuel :
  forall page all_sales log result log',
    fetch_loop server target_count batch_size fuel page all_sales log
    = Some (result, log') ->
    exists more, result = all_sales ++ more.
Proof.
  assert (Hsame : forall l : list pyval, exists more, l = l ++ more)
    by (intros l; exists []; symmetry; apply app_nil_r).
  induction fuel as [|fuel IH]; intros page all_sales log result log';
    cbn [fetch_loop]; destruct (_ <? target_count);
    try (intros [= <- <-]; auto); try discriminate.
  destruct (server page batch_size) as [|status_code json];
    [intros [= <- <-]; auto|].
  destruct (negb _); [intros [= <- <-]; auto|].
  destruct json as [data|]; [|intros [= <- <-]; auto].
  destruct (dict_receiver data) as [d|]; [|intros [= <- <-]; auto].
  destruct (negb _); [intros [= <- <-]; auto|].
  destruct (iterate _) as [l|]; [|intros [= <- <-]; auto].
  intros H. destruct (IH _ _ _ _ _ H) as [more ->].
  exists (l ++ more). rewrite app_assoc. reflexivity.
Qed.

(** The two loops side by side, from a point where all the items so far
    were objects. *)
Lemma crawl_loop_follows_fetch server fuel : forall page ds log out result log',
  fetch_loop server Crawler.TARGET_COUNT Crawler.BATCH_SIZE fuel page
    (map PDict ds) log = Some (result, log') ->
  exists out',
    Crawler.crawl_loop server fuel page (map Crawler.info ds) out
    = Some (map Crawler.info (leading_objects result), out').
Proof.
  induction fuel as [|fuel IH]; intros page ds log out result log';
    cbn [fetch_loop Crawler.crawl_loop]; rewrite !length_map;
    destruct (_ <? Crawler.TARGET_COUNT) eqn:Hlt; try discriminate.
  - intros [= <- <-]. rewrite <- (app_nil_r (map PDict ds)).
    rewrite leading_objects_all, app_nil_r. eauto.
  - assert (Hstop : forall ev,
               exists out',
                 Some (map Crawler.info ds, out ++ [ev])
                 = Some (map Crawler.info (leading_objects (map PDict ds)),
                         out')).
    { intros ev. rewrite <- (app_nil_r (map PDict ds)).
      rewrite leading_objects_all, app_nil_r. eauto. }
    destruct (server page Crawler.BATCH_SIZE) as [|status_code json];
      [intros [= <- <-]; apply Hstop|].
    destruct (negb _); [intros [= <- <-]; apply Hstop|].
    destruct json as [data|]; [|intros [= <- <-]; apply Hstop].
    destruct (dict_receiver data) as [d|]; [|intros [= <- <-]; apply Hstop].
    destruct (negb _); [intros [= <- <-]; apply Hstop|].
    destruct (iterate _) as [l|]; [|intros [= <- <-]; apply Hstop].
    intros H.
    destruct (collect_leading l (map Crawler.info ds)) as [raised [-> [Hf Ht]]].
    destruct raised.
    + destruct (fetch_loop_extends _ _ _ _ _ _ _ _ _ H) as [more ->].
      rewrite <- app_assoc, leading_objects_all, (Ht eq_refl), map_app.
      eauto.
    + rewrite (Hf eq_refl), <- map_app in H. rewrite <- map_app.
      exact (IH _ _ _ _ _ _ H).
  - intros [= <- <-]. rewrite <- (app_nil_r (map PDict ds)).
    rewrite leading_objects_all, app_nil_r. eauto.
Qed.

(** X17.  The crawler and the command fetch alike: what one call of the
    crawler collects is, record for record, the items that the command's
    loop fetches with its default options, up to the first item that is
    not a JSON object; there the crawler stops, keeping what came before
    it.  The loop ends within its fuel. *)
Theorem crawler_collects_leading_objects server log :
  exists out,
    Crawler.crawl_loop server (Z.to_nat Crawler.TARGET_COUNT) 1 []
      [Crawler.Started Crawler.TARGET_COUNT]
    = Some (Crawler.crawl server) /\
    Crawler.crawl server
    = (map Crawler.info
         (leading_objects
            (fst (fetch server (count default_options)
                    (Z.min (batch_size default_options) 100) log))),
       out).
Proof.
  destruct (fetch_loop_fuel server 2000 100 log)
    as [result [log' [Hloop [Hfetch _]]]].
  destruct (crawl_loop_follows_fetch server (Z.to_nat 2000) 1 [] log
              [Crawler.Started Crawler.TARGET_COUNT] result log' Hloop)
    as [out' H].
  exists out'. unfold Crawler.crawl.
  change (Z.to_nat Crawler.TARGET_COUNT) with (Z.to_nat 2000).
  change (map Crawler.info []) with (@nil Crawler.game_info) in H.
  change (count default_options) with 2000.
  change (Z.min (batch_size default_options) 100) with 100.
  rewrite H, Hfetch. auto.
Qed.

(** X18.  A call of the crawler whose write succeeds leaves in the file
    at most 2000 records, the first 2000 leading objects of what the
    command's loop fetches with its default options, and prints their
    number last. *)
Theorem crawler_file_content server file0 log :
  exists saved,
    Crawler.file_after (Crawler.crawl_steam_sales_fast server IoOk file0)
    = Some (Crawler.Written saved) /\
    saved = firstn 2000
              (map Crawler.info
                 (leading_objects
                    (fst (fetch server (count default_options)
                            (Z.min (batch_size default_options) 100) log)))) /\
    (List.length saved <= 2000)%nat /\
    last (Crawler.output (Crawler.crawl_steam_sales_fast server IoOk file0))
      Crawler.ErrorCaught
    = Crawler.Completed (List.length saved) /\
    Crawler.raised (Crawler.crawl_steam_sales_fast server IoOk file0) = false.
Proof.
  destruct (fetch_loop_fuel server 2000 100 log)
    as [result [log' [Hloop [Hfetch _]]]].
  destruct (crawl_loop_follows_fetch server (Z.to_nat 2000) 1 [] log
              [Crawler.Started Crawler.TARGET_COUNT] result log' Hloop)
    as [out' H].
  change (map Crawler.info []) with (@nil Crawler.game_info) in H.
  change (count default_options) with 2000.
  change (Z.min (batch_size default_options) 100) with 100.
  rewrite Hfetch. cbn [fst].
  unfold Crawler.crawl_steam_sales_fast, Crawler.crawl.
  change (Z.to_nat Crawler.TARGET_COUNT) with (Z.to_nat 2000).
  rewrite H. cbn [Crawler.file_after Crawler.output Crawler.raised].
  eexists. split; [reflexivity|]. split; [reflexivity|].
  split; [apply firstn_le_length|]. split; [apply last_last | reflexivity].
Qed.

(** * The loader's list of games *)






